(** * agentstr: capability router and messaging facade

    A shallow embedding of [agentstr/a2a.py] (the capability router with its
    process-wide conversation store) and of the metadata and direct-message
    operations of [agentstr/nostr_client.py].

    Python values are embedded as an inductive type, raising code as an
    error monad, the module-level dict [CHAT_HISTORY] as a [gmap] that is
    threaded through every call.

    The router writes its progress to standard output with [print], and a
    write can raise. Module [a2a] holds what the router computes when every
    one of its writes goes through; module [a2a_stdout] holds the router
    with its writes, over any standard output, and the two are related in
    [a2a_stdout_proofs]. *)

From Stdlib Require Import ZArith Ascii String List Lia DecimalString.
From Stdlib Require Import Floats.PrimFloat.
From stdpp Require Import gmap strings list.

Set Warnings "-register-all".

(** ** Python runtime values *)

(** The values [json.loads] can produce, which are also the values the
    router hands back unchanged in its result tuple. A [dict] keeps its
    entries in insertion order. *)
Inductive pyval : Type :=
| PyNone
| PyBool (b : bool)
| PyInt (n : Z)
| PyFloat (x : float)
| PyStr (s : string)
| PyList (items : list pyval)
| PyDict (entries : list (string * pyval)).

(** [bool(v)], the test behind [if v:]. *)
Definition py_bool (v : pyval) : bool :=
  match v with
  | PyNone => false
  | PyBool b => b
  | PyInt n => negb (n =? 0)%Z
  | PyFloat x => negb (PrimFloat.eqb x 0%float)
  | PyStr s => negb (String.eqb s "")
  | PyList items => match items with [] => false | _ => true end
  | PyDict entries => match entries with [] => false | _ => true end
  end.

(** [type(v).__name__] *)
Definition py_type_name (v : pyval) : string :=
  match v with
  | PyNone => "NoneType"
  | PyBool _ => "bool"
  | PyInt _ => "int"
  | PyFloat _ => "float"
  | PyStr _ => "str"
  | PyList _ => "list"
  | PyDict _ => "dict"
  end.

(** ** Exceptions *)

(** The classes that matter to the two handlers of [agent_router]:
    [JSONDecodeError] and [UnicodeEncodeError] derive from [ValueError];
    everything down to [OtherException] derives from [Exception];
    [KeyboardInterrupt] and [SystemExit] derive from [BaseException]
    only. *)
Inductive exc_class : Type :=
| JSONDecodeError
| UnicodeEncodeError
| ValueError
| TypeError
| AttributeError
| OtherException
| KeyboardInterrupt
| SystemExit.

Record exc : Type := Exc { exc_type : exc_class; exc_str : string }.

(** [isinstance(e, ValueError)] *)
Definition isinstance_ValueError (e : exc) : bool :=
  match exc_type e with
  | JSONDecodeError | UnicodeEncodeError | ValueError => true
  | _ => false
  end.

(** [isinstance(e, Exception)] *)
Definition isinstance_Exception (e : exc) : bool :=
  match exc_type e with
  | KeyboardInterrupt | SystemExit => false
  | _ => true
  end.

Inductive res (A : Type) : Type :=
| Ok (a : A)
| Raise (e : exc).
Arguments Ok {A} a.
Arguments Raise {A} e.

#[global] Instance res_ret : MRet res := fun A a => Ok a.
#[global] Instance res_bind : MBind res := fun A B f m =>
  match m with
  | Ok a => f a
  | Raise e => Raise e
  end.

(** ** String methods

    A [str] is embedded as the string of the bytes of its UTF-8 form, so a
    character of the ASCII range is one byte and any other character is a
    lead byte and one to three continuation bytes. A lone surrogate, which
    a Python [str] may hold, stands as the three bytes the same scheme
    gives its code unit (the form the error handler [surrogatepass]
    writes). *)

Definition byte (n : Z) : ascii := ascii_of_N (Z.to_N n).

(** The bytes of the character with code point [n]. *)
Definition utf8 (n : Z) : string :=
  if (n <? 128)%Z then String (byte n) EmptyString
  else if (n <? 2048)%Z then
    String (byte (192 + n / 64)) (String (byte (128 + n mod 64)) EmptyString)
  else if (n <? 65536)%Z then
    String (byte (224 + n / 4096))
      (String (byte (128 + (n / 64) mod 64))
         (String (byte (128 + n mod 64)) EmptyString))
  else
    String (byte (240 + n / 262144))
      (String (byte (128 + (n / 4096) mod 64))
         (String (byte (128 + (n / 64) mod 64))
            (String (byte (128 + n mod 64)) EmptyString))).

(** A byte that continues a character, [10xxxxxx]. *)
Definition is_continuation (c : ascii) : bool :=
  let n := nat_of_ascii c in (128 <=? n)%nat && (n <? 192)%nat.

(** [len(s)]: the number of characters. *)
Fixpoint code_points (s : string) : nat :=
  match s with
  | EmptyString => 0
  | String c s' => (if is_continuation c then 0 else 1) + code_points s'
  end.

(** The code unit of the surrogate that [s] starts with, if it starts with
    one: the lead byte [0xED] and a second byte from [0xA0] on. *)
Definition surrogate_head (s : string) : option Z :=
  match s with
  | String a (String b (String c _)) =>
      if (nat_of_ascii a =? 237)%nat && (160 <=? nat_of_ascii b)%nat
         && (nat_of_ascii b <? 192)%nat
      then Some (53248 + (Z.of_nat (nat_of_ascii b) - 128) * 64
                 + (Z.of_nat (nat_of_ascii c) - 128))%Z
      else None
  | _ => None
  end.

Definition nl : string := String "010"%char EmptyString.
Definition dq : string := String "034"%char EmptyString.

Definition lower_char (c : ascii) : ascii :=
  let n := nat_of_ascii c in
  if (65 <=? n)%nat && (n <=? 90)%nat then ascii_of_nat (n + 32) else c.

(** [s.lower()] on the ASCII range. *)
Fixpoint str_lower (s : string) : string :=
  match s with
  | EmptyString => EmptyString
  | String c s' => String (lower_char c) (str_lower s')
  end.

Fixpoint find_from (c : ascii) (s : string) (i : Z) : Z :=
  match s with
  | EmptyString => (-1)%Z
  | String a s' => if Ascii.eqb a c then i else find_from c s' (i + 1)%Z
  end.

(** [s.find(c)]: index of the first occurrence, [-1] when there is none. *)
Definition str_find (s : string) (c : ascii) : Z := find_from c s 0%Z.

Fixpoint rfind_from (c : ascii) (s : string) (i last : Z) : Z :=
  match s with
  | EmptyString => last
  | String a s' => rfind_from c s' (i + 1)%Z (if Ascii.eqb a c then i else last)
  end.

(** [s.rfind(c)]: index of the last occurrence, [-1] when there is none. *)
Definition str_rfind (s : string) (c : ascii) : Z := rfind_from c s 0%Z (-1)%Z.

(** A slice bound as Python normalises it: a negative bound counts from
    the end, and every bound is clamped to [0 .. len]. *)
Definition slice_index (len i : Z) : Z :=
  if (i <? 0)%Z then Z.max 0 (i + len) else Z.min i len.

(** [s[start:stop]] *)
Definition str_slice (s : string) (start stop : Z) : string :=
  let len := Z.of_nat (String.length s) in
  let lo := slice_index len start in
  let hi := slice_index len stop in
  substring (Z.to_nat lo) (Z.to_nat (hi - lo)) s.

(** Whitespace as [str.strip()] sees it on the ASCII range. *)
Definition is_space (c : ascii) : bool :=
  let n := nat_of_ascii c in
  ((9 <=? n)%nat && (n <=? 13)%nat) || ((28 <=? n)%nat && (n <=? 32)%nat).

Fixpoint str_lstrip (s : string) : string :=
  match s with
  | EmptyString => EmptyString
  | String c s' => if is_space c then str_lstrip s' else s
  end.

(** [s.strip()] *)
Definition str_strip (s : string) : string :=
  String.rev (str_lstrip (String.rev (str_lstrip s))).

(** [x in s] for strings, with the position made explicit: [a] occurs in
    [s], and [b] occurs in [s] somewhere after that occurrence. *)
Definition precedes_in (a b s : string) : Prop :=
  exists u v w, s = u +:+ a +:+ v +:+ b +:+ w.

(** ** The JSON decoder

    [json.loads] belongs to the Python standard library, not to this
    package. The router is written against any decoder that either returns
    a value or raises [JSONDecodeError] with a message, and that rejects
    the empty document, as [json.loads] does. A reference decoder for a
    fragment of JSON is given further down and used to run the router on
    concrete completion texts. *)
Inductive decoded : Type :=
| Decoded (v : pyval)
| DecodeError (msg : string).

Class JSONDecoder : Type := {
  json_loads : string -> decoded;
  json_loads_empty : exists msg, json_loads "" = DecodeError msg
}.

(** ** A reference decoder

    A recursive-descent decoder for the JSON fragment made of objects,
    arrays, strings with their escapes, integers and the three literals,
    with the whitespace rules of [json.loads]. Numbers with a fraction or
    an exponent and the non-standard literals [NaN] and [Infinity] are
    outside the fragment and rejected here. A repeated key keeps its first position and its last value, as
    in a Python [dict]. Messages carry no position, except for the empty
    document, where the text is the one CPython produces. *)
Module json.

Definition is_ws (c : ascii) : bool :=
  match c with
  | " "%char | "009"%char | "010"%char | "013"%char => true
  | _ => false
  end.

Fixpoint skip_ws (s : string) : string :=
  match s with
  | String c s' => if is_ws c then skip_ws s' else s
  | EmptyString => EmptyString
  end.

Definition digit (c : ascii) : option Z :=
  let n := nat_of_ascii c in
  if (48 <=? n)%nat && (n <=? 57)%nat then Some (Z.of_nat (n - 48)) else None.

Fixpoint digits (s : string) (acc : Z) : Z * string :=
  match s with
  | String c s' =>
      match digit c with
      | Some d => digits s' (10 * acc + d)%Z
      | None => (acc, s)
      end
  | EmptyString => (acc, s)
  end.

(** The digits of an integer, after the optional sign. A leading zero
    stands alone. *)
Definition natural (s : string) : option (Z * string) :=
  match s with
  | String c s' =>
      match digit c with
      | Some 0%Z => Some (0%Z, s')
      | Some _ => Some (digits s 0%Z)
      | None => None
      end
  | EmptyString => None
  end.

Definition integer (s : string) : option (pyval * string) :=
  '(sign, s) ← Some (match s with
                     | String "-"%char s' => ((-1)%Z, s')
                     | _ => (1%Z, s)
                     end);
  '(n, rest) ← natural s;
  match rest with
  | String "."%char _ | String "e"%char _ | String "E"%char _ => None
  | _ => Some (PyInt (sign * n), rest)
  end.

Definition unescape (c : ascii) : option ascii :=
  match c with
  | "034"%char => Some "034"%char
  | "\"%char => Some "\"%char
  | "/"%char => Some "/"%char
  | "b"%char => Some "008"%char
  | "f"%char => Some "012"%char
  | "n"%char => Some "010"%char
  | "r"%char => Some "013"%char
  | "t"%char => Some "009"%char
  | _ => None
  end.

Definition hex_digit (c : ascii) : option Z :=
  let n := nat_of_ascii c in
  if (48 <=? n)%nat && (n <=? 57)%nat then Some (Z.of_nat (n - 48))
  else if (97 <=? n)%nat && (n <=? 102)%nat then Some (Z.of_nat (n - 87))
  else if (65 <=? n)%nat && (n <=? 70)%nat then Some (Z.of_nat (n - 55))
  else None.

(** The code unit written by the four hexadecimal digits of [\uXXXX]. *)
Definition hex4 (a b c d : ascii) : option Z :=
  a ← hex_digit a; b ← hex_digit b; c ← hex_digit c; d ← hex_digit d;
  Some (((a * 16 + b) * 16 + c) * 16 + d)%Z.

(** A high surrogate followed by the escape of a low surrogate writes one
    character; [low] is what the digits of the second escape give. *)
Definition surrogate_pair (high : Z) (low : option Z) : option Z :=
  match low with
  | Some low =>
      if (55296 <=? high)%Z && (high <=? 56319)%Z
         && (56320 <=? low)%Z && (low <=? 57343)%Z
      then Some (65536 + (high - 55296) * 1024 + (low - 56320))%Z
      else None
  | None => None
  end.

(** The characters of a string literal, after its opening quote. An
    escape [\uXXXX] writes its code unit, a surrogate that has no partner
    included. *)
Fixpoint string_body (s : string) : option (string * string) :=
  match s with
  | String "034"%char rest => Some (EmptyString, rest)
  | String "\"%char (String "u"%char (String a (String b (String c (String d s'))))) =>
      n ← hex4 a b c d;
      match s' with
      | String "\"%char (String "u"%char (String e (String f (String g (String h s''))))) =>
          match surrogate_pair n (hex4 e f g h) with
          | Some joined => '(body, rest) ← string_body s''; Some (utf8 joined +:+ body, rest)
          | None => '(body, rest) ← string_body s'; Some (utf8 n +:+ body, rest)
          end
      | _ => '(body, rest) ← string_body s'; Some (utf8 n +:+ body, rest)
      end
  | String "\"%char (String c s') =>
      c ← unescape c;
      '(body, rest) ← string_body s';
      Some (String c body, rest)
  | String c s' =>
      if (nat_of_ascii c <? 32)%nat then None
      else '(body, rest) ← string_body s'; Some (String c body, rest)
  | EmptyString => None
  end.

Fixpoint dict_set (key : string) (v : pyval) (entries : list (string * pyval))
    : list (string * pyval) :=
  match entries with
  | [] => [(key, v)]
  | (k, v') :: rest =>
      if String.eqb k key then (k, v) :: rest else (k, v') :: dict_set key v rest
  end.

Definition literal (word : string) (v : pyval) (s : string) : option (pyval * string) :=
  if String.prefix word s
  then Some (v, substring (String.length word) (String.length s - String.length word) s)
  else None.

Fixpoint value (fuel : nat) (s : string) : option (pyval * string) :=
  match fuel with
  | O => None
  | S fuel =>
      match s with
      | String "{"%char rest =>
          match skip_ws rest with
          | String "}"%char rest => Some (PyDict [], rest)
          | rest => members fuel rest []
          end
      | String "["%char rest =>
          match skip_ws rest with
          | String "]"%char rest => Some (PyList [], rest)
          | rest => elements fuel rest []
          end
      | String "034"%char rest =>
          '(body, rest) ← string_body rest; Some (PyStr body, rest)
      | String "t"%char _ => literal "true" (PyBool true) s
      | String "f"%char _ => literal "false" (PyBool false) s
      | String "n"%char _ => literal "null" PyNone s
      | _ => integer s
      end
  end
with members (fuel : nat) (s : string) (acc : list (string * pyval))
    : option (pyval * string) :=
  match fuel with
  | O => None
  | S fuel =>
      match s with
      | String "034"%char rest =>
          '(key, rest) ← string_body rest;
          match skip_ws rest with
          | String ":"%char rest =>
              '(v, rest) ← value fuel (skip_ws rest);
              let acc := dict_set key v acc in
              match skip_ws rest with
              | String ","%char rest => members fuel (skip_ws rest) acc
              | String "}"%char rest => Some (PyDict acc, rest)
              | _ => None
              end
          | _ => None
          end
      | _ => None
      end
  end
with elements (fuel : nat) (s : string) (acc : list pyval) : option (pyval * string) :=
  match fuel with
  | O => None
  | S fuel =>
      '(v, rest) ← value fuel s;
      let acc := acc ++ [v] in
      match skip_ws rest with
      | String ","%char rest => elements fuel (skip_ws rest) acc
      | String "]"%char rest => Some (PyList acc, rest)
      | _ => None
      end
  end.

Definition loads (s : string) : decoded :=
  match s with
  | EmptyString => DecodeError "Expecting value: line 1 column 1 (char 0)"
  | _ =>
      let doc := skip_ws s in
      match value (S (String.length doc)) doc with
      | Some (v, rest) =>
          match skip_ws rest with
          | EmptyString => Decoded v
          | _ => DecodeError "Extra data"
          end
      | None => DecodeError "Expecting value"
      end
  end.

End json.

#[global] Instance reference_decoder : JSONDecoder :=
  {| json_loads := json.loads; json_loads_empty := ex_intro _ _ eq_refl |}.

(** * a2a.py *)
Module a2a.

Record Skill : Type := mkSkill {
  skill_name : string;
  skill_description : string;
  skill_satoshis : option Z
}.

Record AgentCard : Type := mkAgentCard {
  name : string;
  description : string;
  skills : list Skill;
  satoshis : option Z;
  nostr_pubkey : string;
  nostr_relays : list string
}.

(** The tuple [agent_router] returns: [(can_handle, cost, user_message,
    skills_used)]. Three of the components come straight out of the
    decoded object, so they are Python values of any type; the cost is
    always an [int]. The accessors carry the names the specification gives
    to the parts of a decision. *)
Definition RouterDecision : Type := pyval * Z * pyval * pyval.

Definition canHandle (d : RouterDecision) : pyval := d.1.1.1.
Definition costUnits (d : RouterDecision) : Z := d.1.1.2.
Definition userMessage (d : RouterDecision) : pyval := d.1.2.
Definition skillsUsed (d : RouterDecision) : pyval := d.2.

(** What a call does from the caller's side. *)
Inductive outcome (A : Type) : Type :=
| Returned (a : A)
| Propagated (e : exc).
Arguments Returned {A} a.
Arguments Propagated {A} e.

(** What [llm_callable(prompt)] does: it returns some object or raises. *)
Inductive llm_outcome : Type :=
| LLMReturn (response : pyval)
| LLMRaise (e : exc).

(** The completion callable runs inside the process, so what it does may
    depend on the conversation store as it is when the call is made. It is
    taken not to write to the store. *)
Definition llm : Type := gmap string string -> string -> llm_outcome.

(** Lines 113-117: the history lookup and the store update. An empty
    [thread_id] fails the test [if thread_id] exactly as [None] does. *)
Definition thread_key (thread_id : option string) : option string :=
  match thread_id with
  | Some t => if py_bool (PyStr t) then Some t else None
  | None => None
  end.

Definition check_history (user_message : string) (thread_id : option string)
    (CHAT_HISTORY : gmap string string) : string * gmap string string :=
  let user_message :=
    match thread_key thread_id with
    | Some t =>
        match CHAT_HISTORY !! t with
        | Some history => history +:+ nl +:+ nl +:+ user_message
        | None => user_message
        end
    | None => user_message
    end in
  let CHAT_HISTORY :=
    match thread_key thread_id with
    | Some t => <[t := user_message]> CHAT_HISTORY
    | None => CHAT_HISTORY
    end in
  (user_message, CHAT_HISTORY).

(** Lines 123-154: the prompt. *)
Definition prompt_header (agent_card : AgentCard) : string :=
  "You are an agent router that determines if an agent can handle a user's request." +:+ nl +:+
  nl +:+
  "Agent Information:" +:+ nl +:+
  "Name: " +:+ name agent_card +:+ nl +:+
  "Description: " +:+ description agent_card +:+ nl +:+
  nl +:+
  "Skills:".

Fixpoint prompt_skills (l : list Skill) : string :=
  match l with
  | [] => ""
  | skill :: l' =>
      nl +:+ "- " +:+ skill_name skill +:+ ": " +:+ skill_description skill
      +:+ prompt_skills l'
  end.

Definition prompt_instructions : string :=
  nl +:+
  "Analyze if the agent can handle this request based on their skills and description and chat history." +:+ nl +:+
  "Consider both the agent's capabilities and whether the request matches their purpose." +:+ nl +:+
  nl +:+
  "The agent may need to use multiple skills to handle the request. If so, include all" +:+ nl +:+
  "relevant skills." +:+ nl +:+
  nl +:+
  "The user_message should be a friendly, conversational message that:" +:+ nl +:+
  "- Confirms the action to be taken" +:+ nl +:+
  "- Explains what will be done in simple terms" +:+ nl +:+
  "- Asks for confirmation to proceed" +:+ nl +:+
  "- Is concise (1-2 sentences max)" +:+ nl +:+
  nl +:+
  "Respond with a JSON object with these fields:" +:+ nl +:+
  "{" +:+ nl +:+
  "    " +:+ dq +:+ "can_handle" +:+ dq +:+ ": boolean,    # Whether the agent can handle this request" +:+ nl +:+
  "    " +:+ dq +:+ "user_message" +:+ dq +:+ ": string,   # Friendly message to ask the user if they want to proceed" +:+ nl +:+
  "    " +:+ dq +:+ "skills_used" +:+ dq +:+ ": [string]   # Names of skills being used, if any" +:+ nl +:+
  "}" +:+ nl +:+
  "    ".

Definition build_prompt (agent_card : AgentCard) (user_message : string) : string :=
  (prompt_header agent_card +:+ prompt_skills (skills agent_card))
  +:+ (nl +:+ nl +:+ "User Request History: " +:+ nl +:+ nl +:+ user_message +:+ nl +:+ nl)
  +:+ prompt_instructions.

(** ** Attribute access and iteration on decoded values *)

Definition no_attribute (v : pyval) (attr : string) : exc :=
  Exc AttributeError
    ("'" +:+ py_type_name v +:+ "' object has no attribute '" +:+ attr +:+ "'").

(** The receiver of a [str] method; any other type has no such attribute. *)
Definition str_receiver (v : pyval) (attr : string) : res string :=
  match v with
  | PyStr s => Ok s
  | _ => Raise (no_attribute v attr)
  end.

Fixpoint assoc (key : string) (entries : list (string * pyval)) : option pyval :=
  match entries with
  | [] => None
  | (k, v) :: rest => if String.eqb k key then Some v else assoc key rest
  end.

(** [d.get(key, default)] on the entries of a [dict]. *)
Definition dict_get (entries : list (string * pyval)) (key : string) (default : pyval)
    : pyval :=
  match assoc key entries with
  | Some v => v
  | None => default
  end.

(** [obj.get(key, default)] *)
Definition py_get (obj : pyval) (key : string) (default : pyval) : res pyval :=
  match obj with
  | PyDict entries => Ok (dict_get entries key default)
  | _ => Raise (no_attribute obj "get")
  end.

Fixpoint chars (s : string) : list pyval :=
  match s with
  | EmptyString => []
  | String c s' => PyStr (String c EmptyString) :: chars s'
  end.

(** The items [for x in v] runs over. *)
Definition py_iter (v : pyval) : res (list pyval) :=
  match v with
  | PyList items => Ok items
  | PyStr s => Ok (chars s)
  | PyDict entries => Ok (map (fun kv => PyStr (fst kv)) entries)
  | _ => Raise (Exc TypeError ("'" +:+ py_type_name v +:+ "' object is not iterable"))
  end.

(** ** Pricing, lines 174-189 *)

(** Lines 180-183, for one [skill_name]: walk the card's skills, add the
    price of the first one whose lowered name equals the lowered
    [skill_name] and whose price is set, and stop there. *)
Fixpoint match_skill (card_skills : list Skill) (skill_name' : pyval) (skill_cost : Z)
    : res Z :=
  match card_skills with
  | [] => Ok skill_cost
  | skill :: rest =>
      s ← str_receiver skill_name' "lower";
      match skill_satoshis skill with
      | Some price =>
          if String.eqb (str_lower (skill_name skill)) (str_lower s)
          then Ok (skill_cost + price)%Z
          else match_skill rest skill_name' skill_cost
      | None => match_skill rest skill_name' skill_cost
      end
  end.

(** Lines 179-183: the loop over [skills_used]. *)
Fixpoint sum_skills (card_skills : list Skill) (names : list pyval) (skill_cost : Z)
    : res Z :=
  match names with
  | [] => Ok skill_cost
  | skill_name' :: rest =>
      skill_cost ← match_skill card_skills skill_name' skill_cost;
      sum_skills card_skills rest skill_cost
  end.

(** Lines 174-189. *)
Definition compute_cost (agent_card : AgentCard) (can_handle skills_used : pyval)
    : res Z :=
  let cost := 0%Z in
  if py_bool can_handle then
    cost ← (if py_bool skills_used then
              names ← py_iter skills_used;
              skill_cost ← sum_skills (skills agent_card) names 0%Z;
              Ok (if (0 <? skill_cost)%Z then skill_cost else cost)
            else Ok cost);
    Ok (match satoshis agent_card with
        | Some base => (cost + base)%Z
        | None => cost
        end)
  else Ok cost.

(** Line 161: [response[response.find('{'):response.rfind('}')+1]]. *)
Definition first_to_last_brace (response : string) : string :=
  str_slice response (str_find response "{"%char) (str_rfind response "}"%char + 1)%Z.

(** From here on, what the router computes on a standard output that
    takes every write: the [print] calls of lines 119, 120, 155, 162, 191,
    195 and 199 are not in these definitions. Module [a2a_stdout] below
    has the router with them, and [a2a_stdout_proofs.agent_router_written]
    shows that it is the router of this section whenever the texts the
    call writes all go through. *)
Section Router.
Context `{JSONDecoder}.

(** Lines 166-192, the body of the inner [try], up to the tuple it
    returns. *)
Definition parse_response (agent_card : AgentCard) (response : string)
    : res RouterDecision :=
  match json_loads (str_strip response) with
  | DecodeError msg => Raise (Exc JSONDecodeError msg)
  | Decoded result =>
      can_handle ← py_get result "can_handle" (PyBool false);
      user_message ← py_get result "user_message" (PyStr "");
      skills_used ← py_get result "skills_used" (PyList []);
      cost ← compute_cost agent_card can_handle skills_used;
      Ok (can_handle, cost, user_message, skills_used)
  end.

(** The tuple both handlers return. *)
Definition failure (prefix : string) (e : exc) : RouterDecision :=
  (PyBool false, 0%Z, PyStr (prefix +:+ exc_str e), PyList []).

(** Lines 194-196: [except (json.JSONDecodeError, ValueError) as e]. *)
Definition inner_handler (r : res RouterDecision) : res RouterDecision :=
  match r with
  | Ok d => Ok d
  | Raise e =>
      if isinstance_ValueError e
      then Ok (failure "Error parsing LLM response: " e)
      else Raise e
  end.

(** Lines 198-200: [except Exception as e]. What is not an [Exception]
    goes on to the caller. *)
Definition outer_handler (r : res RouterDecision) : outcome RouterDecision :=
  match r with
  | Ok d => Returned d
  | Raise e =>
      if isinstance_Exception e
      then Returned (failure "Error in agent routing: " e)
      else Propagated e
  end.

(** Lines 158-196, the body of the outer [try]: the call, the cut from the
    first opening brace to the last closing brace, and the inner [try] with
    its handler for [json.JSONDecodeError] and [ValueError]. *)
Definition route_response (agent_card : AgentCard) (reply : llm_outcome)
    : res RouterDecision :=
  match reply with
  | LLMRaise e => Raise e
  | LLMReturn response =>
      s ← str_receiver response "find";
      let response := first_to_last_brace s in
      inner_handler (parse_response agent_card response)
  end.

(** Lines 95-200. The result is the conversation store after the call and
    what the caller observes. *)
Definition agent_router (user_message : string) (agent_card : AgentCard)
    (llm_callable : llm) (thread_id : option string)
    (CHAT_HISTORY : gmap string string)
    : gmap string string * outcome RouterDecision :=
  let '(user_message, CHAT_HISTORY) := check_history user_message thread_id CHAT_HISTORY in
  let prompt := build_prompt agent_card user_message in
  (CHAT_HISTORY,
   outer_handler (route_response agent_card (llm_callable CHAT_HISTORY prompt))).

(** ** [RouterResponse] and [agent_router_v2] *)

Record RouterResponse : Type := mkRouterResponse {
  can_handle : bool;
  cost_sats : Z;
  user_message : string;
  skills_used : list string
}.

(** [RouterResponse] is a pydantic (version 2) model, so its constructor
    validates every keyword argument against the declared field type, in
    pydantic's default (lax) mode, and raises [ValidationError], a
    [ValueError], when one does not fit. The three validators below are
    pydantic's rules for [bool], [str] and [list[str]] on the values a
    decoded JSON document can hold. *)
Definition ValidationError (field : string) : exc :=
  Exc ValueError ("1 validation error for RouterResponse" +:+ nl +:+ field).

Definition validate_bool (field : string) (v : pyval) : res bool :=
  match v with
  | PyBool b => Ok b
  | PyInt 0 => Ok false
  | PyInt 1 => Ok true
  | PyFloat x =>
      if PrimFloat.eqb x 0%float then Ok false
      else if PrimFloat.eqb x 1%float then Ok true
      else Raise (ValidationError field)
  | PyStr s =>
      let s := str_lower s in
      if bool_decide (s ∈ ["0"; "off"; "f"; "false"; "n"; "no"]) then Ok false
      else if bool_decide (s ∈ ["1"; "on"; "t"; "true"; "y"; "yes"]) then Ok true
      else Raise (ValidationError field)
  | _ => Raise (ValidationError field)
  end.

Definition validate_str (field : string) (v : pyval) : res string :=
  match v with
  | PyStr s => Ok s
  | _ => Raise (ValidationError field)
  end.

Fixpoint validate_items (field : string) (items : list pyval) : res (list string) :=
  match items with
  | [] => Ok []
  | v :: rest =>
      s ← validate_str field v;
      l ← validate_items field rest;
      Ok (s :: l)
  end.

Definition validate_list_str (field : string) (v : pyval) : res (list string) :=
  match v with
  | PyList items => validate_items field items
  | _ => Raise (ValidationError field)
  end.

(** [RouterResponse(can_handle=.., cost_sats=.., user_message=..,
    skills_used=..)] *)
Definition RouterResponse_init (can_handle : pyval) (cost_sats : Z)
    (user_message skills_used : pyval) : res RouterResponse :=
  can_handle ← validate_bool "can_handle" can_handle;
  user_message ← validate_str "user_message" user_message;
  skills_used ← validate_list_str "skills_used" skills_used;
  Ok (mkRouterResponse can_handle cost_sats user_message skills_used).

(** Lines 203-222. Nothing is caught here: what [agent_router] lets
    through and what the constructor raises both reach the caller. *)
Definition agent_router_v2 (user_message : string) (agent_card : AgentCard)
    (llm_callable : llm) (thread_id : option string)
    (CHAT_HISTORY : gmap string string)
    : gmap string string * outcome RouterResponse :=
  let '(CHAT_HISTORY, r) :=
    agent_router user_message agent_card llm_callable thread_id CHAT_HISTORY in
  (CHAT_HISTORY,
   match r with
   | Propagated e => Propagated e
   | Returned (can_handle, cost, user_message, skills_used) =>
       match RouterResponse_init can_handle cost user_message skills_used with
       | Ok response => Returned response
       | Raise e => Propagated e
       end
   end).

(** A run of calls on one thread, in the order they are issued: each is a
    request, a card and a completion callable. The result is the store
    after the last call. *)
Fixpoint route_all (calls : list (string * AgentCard * llm)) (thread_id : option string)
    (CHAT_HISTORY : gmap string string) : gmap string string :=
  match calls with
  | [] => CHAT_HISTORY
  | (user_message, agent_card, llm_callable) :: rest =>
      route_all rest thread_id
        (agent_router user_message agent_card llm_callable thread_id CHAT_HISTORY).1
  end.

End Router.

(** ** The specification's pricing rule *)

(** A skill of the card matches a name when the two are equal up to
    case. *)
Definition matches_name (skill : Skill) (n : string) : bool :=
  bool_decide (str_lower (skill_name skill) = str_lower n).

(** The price of a skill of the card that matches the name and has a
    price set: the first such skill in the card's order. *)
Definition matched_price (agent_card : AgentCard) (n : string) : option Z :=
  skill ← List.find
            (fun skill => matches_name skill n && bool_decide (is_Some (skill_satoshis skill)))
            (skills agent_card);
  skill_satoshis skill.

(** The sum, over the names in [skills_used], of the matched prices. *)
Definition skillCost (agent_card : AgentCard) (names : list string) : Z :=
  foldr Z.add 0%Z (map (fun n => default 0%Z (matched_price agent_card n)) names).

(** The skill-derived component, present only when the sum is strictly
    positive, plus the base price if set. *)
Definition priced (agent_card : AgentCard) (names : list string) : Z :=
  ((if bool_decide (0 < skillCost agent_card names)%Z
    then skillCost agent_card names else 0)
   + default 0 (satoshis agent_card))%Z.

(** The accumulated text of a thread: what was stored before, if
    anything, and the raw requests in call order, joined by a blank
    line. *)
Definition blank_line : string := nl +:+ nl.

Definition accumulated (stored : option string) (requests : list string) : string :=
  String.concat blank_line (option_list stored ++ requests).

(** The previously stored text of thread [t], if any, then a blank line,
    then the newest raw request. *)
Definition combined (CHAT_HISTORY : gmap string string) (t user_message : string) : string :=
  match CHAT_HISTORY !! t with
  | Some history => history +:+ nl +:+ nl +:+ user_message
  | None => user_message
  end.

(** [c in s] for a single character. *)
Fixpoint has_char (c : ascii) (s : string) : bool :=
  match s with
  | EmptyString => false
  | String a s' => Ascii.eqb a c || has_char c s'
  end.

End a2a.

(** * a2a.py, with its writes to standard output *)
Module a2a_stdout.
Import a2a.

(** ** Standard output

    [print(f"..")] formats its f-string and writes the text to
    [sys.stdout]. The stream is not the router's: whether a write goes
    through, and what it raises when it does not, is decided by the
    stream's encoding, by its error handler and by the state it is in. A
    call site hands [py_print] the f-string as the list of its parts, the
    literal text and the interpolated values in order; [py_print] returns
    [None] or raises what the write raised. *)
Class Stdout : Type := py_print : list pyval -> res unit.

Definition goes_through `{Stdout} (parts : list pyval) : Prop :=
  py_print parts = Ok tt.

Definition written `{Stdout} (parts : list pyval) : bool :=
  match py_print parts with
  | Ok _ => true
  | Raise _ => false
  end.

(** ** The texts the router prints *)

Definition price_value (price : option Z) : pyval :=
  match price with
  | Some n => PyInt n
  | None => PyNone
  end.

(** [skill.model_dump()]: the fields as a [dict], in the order of their
    declaration. *)
Definition Skill_model_dump (skill : Skill) : pyval :=
  PyDict [("name", PyStr (skill_name skill));
          ("description", PyStr (skill_description skill));
          ("satoshis", price_value (skill_satoshis skill))].

(** [agent_card.model_dump()] *)
Definition model_dump (agent_card : AgentCard) : pyval :=
  PyDict [("name", PyStr (name agent_card));
          ("description", PyStr (description agent_card));
          ("skills", PyList (map Skill_model_dump (skills agent_card)));
          ("satoshis", price_value (satoshis agent_card));
          ("nostr_pubkey", PyStr (nostr_pubkey agent_card));
          ("nostr_relays", PyList (map PyStr (nostr_relays agent_card)))].

(** Line 119 *)
Definition request_text (user_message : string) : list pyval :=
  [PyStr "Agent router: "; PyStr user_message].

(** Line 120 *)
Definition card_text (agent_card : AgentCard) : list pyval :=
  [PyStr "Agent card: "; model_dump agent_card].

(** Line 155 *)
Definition prompt_text (prompt : string) : list pyval :=
  [PyStr "Prompt: "; PyStr prompt].

(** Line 162 *)
Definition response_text (response : string) : list pyval :=
  [PyStr "LLM response: "; PyStr response].

(** Line 191 *)
Definition decision_text (d : RouterDecision) : list pyval :=
  [PyStr "Router response: "; canHandle d; PyStr ", "; PyInt (costUnits d);
   PyStr ", "; userMessage d; PyStr ", "; skillsUsed d].

(** Line 195 *)
Definition parse_error_text (e : exc) : list pyval :=
  [PyStr "Error parsing LLM response: "; PyStr (exc_str e)].

(** Line 199 *)
Definition routing_error_text (e : exc) : list pyval :=
  [PyStr "Error in agent routing: "; PyStr (exc_str e)].

Section Router.
Context {decoder : JSONDecoder} {stdout : Stdout}.

(** Lines 166-192, the body of the inner [try]: the tuple is computed,
    line 191 prints it, line 192 returns it. *)
Definition parse_response (agent_card : AgentCard) (response : string)
    : res RouterDecision :=
  d ← a2a.parse_response agent_card response;
  _ ← py_print (decision_text d);
  Ok d.

(** Lines 194-196: [except (json.JSONDecodeError, ValueError) as e]. The
    handler prints before it returns; what its [print] raises leaves the
    inner [try] statement. *)
Definition inner_handler (r : res RouterDecision) : res RouterDecision :=
  match r with
  | Ok d => Ok d
  | Raise e =>
      if isinstance_ValueError e
      then _ ← py_print (parse_error_text e);
           Ok (failure "Error parsing LLM response: " e)
      else Raise e
  end.

(** Lines 198-200: [except Exception as e]. The handler prints before it
    returns; what its [print] raises goes to the caller, as does what is
    not an [Exception]. *)
Definition outer_handler (r : res RouterDecision) : outcome RouterDecision :=
  match r with
  | Ok d => Returned d
  | Raise e =>
      if isinstance_Exception e
      then match py_print (routing_error_text e) with
           | Ok _ => Returned (failure "Error in agent routing: " e)
           | Raise e' => Propagated e'
           end
      else Propagated e
  end.

(** Lines 158-196, the body of the outer [try]. *)
Definition route_response (agent_card : AgentCard) (reply : llm_outcome)
    : res RouterDecision :=
  match reply with
  | LLMRaise e => Raise e
  | LLMReturn response =>
      s ← str_receiver response "find";
      let response := first_to_last_brace s in
      _ ← py_print (response_text response);
      inner_handler (parse_response agent_card response)
  end.

(** Lines 119-155: the three writes that come before the [try]. *)
Definition announce (user_message : string) (agent_card : AgentCard) (prompt : string)
    : res unit :=
  _ ← py_print (request_text user_message);
  _ ← py_print (card_text agent_card);
  py_print (prompt_text prompt).

(** Lines 95-200. The store is updated first; a write that raises before
    the [try] ends the call there, with the callable not invoked. *)
Definition agent_router (user_message : string) (agent_card : AgentCard)
    (llm_callable : llm) (thread_id : option string)
    (CHAT_HISTORY : gmap string string)
    : gmap string string * outcome RouterDecision :=
  let '(user_message, CHAT_HISTORY) := check_history user_message thread_id CHAT_HISTORY in
  let prompt := build_prompt agent_card user_message in
  (CHAT_HISTORY,
   match announce user_message agent_card prompt with
   | Raise e => Propagated e
   | Ok _ =>
       outer_handler (route_response agent_card (llm_callable CHAT_HISTORY prompt))
   end).

(** Lines 203-222. *)
Definition agent_router_v2 (user_message : string) (agent_card : AgentCard)
    (llm_callable : llm) (thread_id : option string)
    (CHAT_HISTORY : gmap string string)
    : gmap string string * outcome RouterResponse :=
  let '(CHAT_HISTORY, r) :=
    agent_router user_message agent_card llm_callable thread_id CHAT_HISTORY in
  (CHAT_HISTORY,
   match r with
   | Propagated e => Propagated e
   | Returned (can_handle, cost, user_message, skills_used) =>
       match RouterResponse_init can_handle cost user_message skills_used with
       | Ok response => Returned response
       | Raise e => Propagated e
       end
   end).

(** What line 199 prints for an exception that reaches the outer
    handler. *)
Definition outer_text (e : exc) : list (list pyval) :=
  if isinstance_Exception e then [routing_error_text e] else [].

(** The texts a call hands to [print], in order, when each of them goes
    through: lines 119, 120 and 155; line 162 once the callable has
    returned a string; then line 191 for a decision, line 195 for what the
    inner handler catches, and line 199 for what the outer handler
    catches. *)
Definition writes (user_message : string) (agent_card : AgentCard)
    (llm_callable : llm) (thread_id : option string)
    (CHAT_HISTORY : gmap string string) : list (list pyval) :=
  let '(user_message, CHAT_HISTORY) := check_history user_message thread_id CHAT_HISTORY in
  let prompt := build_prompt agent_card user_message in
  [request_text user_message; card_text agent_card; prompt_text prompt] ++
  match llm_callable CHAT_HISTORY prompt with
  | LLMRaise e => outer_text e
  | LLMReturn response =>
      match str_receiver response "find" with
      | Raise e => outer_text e
      | Ok s =>
          let response := first_to_last_brace s in
          response_text response ::
          match a2a.parse_response agent_card response with
          | Ok d => [decision_text d]
          | Raise e =>
              if isinstance_ValueError e then [parse_error_text e] else outer_text e
          end
      end
  end.

End Router.

(** ** The specification's matching rule

    Two names match case-insensitively when they have the same length and
    agree character by character, a capital letter of the ASCII range
    counting as its small letter. *)
Definition is_capital (c : ascii) : bool :=
  let n := nat_of_ascii c in (65 <=? n)%nat && (n <=? 90)%nat.

Definition same_letter (c d : ascii) : bool :=
  Ascii.eqb c d
  || (is_capital c && (nat_of_ascii d =? nat_of_ascii c + 32)%nat)
  || (is_capital d && (nat_of_ascii c =? nat_of_ascii d + 32)%nat).

Fixpoint same_up_to_case (a b : string) : bool :=
  match a, b with
  | EmptyString, EmptyString => true
  | String c a', String d b' => same_letter c d && same_up_to_case a' b'
  | _, _ => false
  end.

(** The price charged for a name: that of the first skill of the card
    whose name matches it and whose price is set, nothing when there is no
    such skill. *)
Definition price_of (agent_card : AgentCard) (n : string) : Z :=
  match List.find
          (fun skill => same_up_to_case (skill_name skill) n
                        && bool_decide (is_Some (skill_satoshis skill)))
          (skills agent_card) with
  | Some skill => default 0%Z (skill_satoshis skill)
  | None => 0%Z
  end.

(** The sum over the names in [skills_used]. *)
Definition skills_price (agent_card : AgentCard) (names : list string) : Z :=
  foldr Z.add 0%Z (map (price_of agent_card) names).

End a2a_stdout.

(** * nostr_client.py *)
Module nostr_client.

(** ** pynostr's data, as far as the client touches it *)

Inductive EventKind : Type :=
| SET_METADATA
| TEXT_NOTE
| ENCRYPTED_DIRECT_MESSAGE.

#[global] Instance EventKind_eq_dec : EqDecision EventKind.
Proof. solve_decision. Defined.

(** An event. [pubkey] is empty until the event is signed. *)
Record Event : Type := mkEvent {
  pubkey : option string;
  kind : EventKind;
  event_content : option string;
  event_created_at : option Z
}.

Record Filters : Type := mkFilters {
  kinds : list EventKind;
  authors : option (list string);
  limit : Z
}.

(** [pynostr.metadata.Metadata]: the ten profile attributes that
    [update_metadata] assigns, the timestamp, and the serialized content.
    Every attribute of a fresh [Metadata()] is [None]. *)
Record Metadata : Type := mkMetadata {
  name : option string;
  about : option string;
  nip05 : option string;
  picture : option string;
  banner : option string;
  lud16 : option string;
  lud06 : option string;
  username : option string;
  display_name : option string;
  website : option string;
  created_at : option Z;
  content : option string
}.

Definition Metadata_new : Metadata :=
  mkMetadata None None None None None None None None None None None None.

(** The ten profile attributes, in the order of the parameters of
    [update_metadata]. *)
Definition profile (m : Metadata) : list (option string) :=
  [name m; about m; nip05 m; picture m; banner m;
   lud16 m; lud06 m; username m; display_name m; website m].

Definition sign (public_key : string) (e : Event) : Event :=
  mkEvent (Some public_key) (kind e) (event_content e) (event_created_at e).

(** What pynostr 0.7.0 carries over of an attribute, into a dict or into
    the serialized content: the attribute when it is truthy, nothing when
    it is [None] or the empty string. *)
Definition kept (stored : option string) : option string :=
  match stored with
  | Some v => if py_bool (PyStr v) then Some v else None
  | None => None
  end.

(** The methods of [pynostr.metadata.Metadata] that [nostr_client.py]
    calls. pynostr is a separate package; the publish decision of the
    client is stated against any implementation that does what pynostr
    0.7.0 does: copying through [metadata_to_dict] and [set_metadata] into
    a fresh object carries over the truthy attributes, [update]
    recomputes [content] from the profile alone and leaves the profile as
    it is, and an event made from updated metadata reads back with the
    truthy attributes and with that content, whoever signed it.
    [metadata_to_dict] and [set_metadata] are written out in
    [pynostr_reference] below. [from_event] is taken on events whose
    content pynostr can decode; on any other content the library raises,
    and nothing is stated here about such a relay. *)
Class Pynostr : Type := {
  metadata_dict : Type;
  metadata_to_dict : Metadata -> metadata_dict;
  set_metadata : Metadata -> metadata_dict -> Metadata;
  update : Metadata -> Metadata;
  to_event : Metadata -> Event;
  from_event : Event -> Metadata;
  set_metadata_to_dict : forall m,
    profile (set_metadata Metadata_new (metadata_to_dict m)) = kept <$> profile m;
  update_profile : forall m, profile (update m) = profile m;
  update_content : forall m1 m2,
    profile m1 = profile m2 -> content (update m1) = content (update m2);
  to_event_kind : forall m, kind (to_event m) = SET_METADATA;
  from_to_event : forall m pk,
    profile (from_event (sign pk (to_event (update m)))) = kept <$> profile m /\
    content (from_event (sign pk (to_event (update m)))) = content (update m)
}.

(** ** The relay *)

(** Modelled from the spec: the filter test of the relay behind
    [EventRelay] of [agentstr/nostr_event_relay.py], which is not among
    the sources. An event passes when its kind is one of the kinds asked
    for and, if authors are given, its signer is one of them. *)
Definition passes (filters : Filters) (e : Event) : bool :=
  bool_decide (kind e ∈ kinds filters) &&
  match authors filters, pubkey e with
  | None, _ => true
  | Some l, Some pk => bool_decide (pk ∈ l)
  | Some _, None => false
  end.

(** Modelled from the spec: [EventRelay.get_event], missing with
    [agentstr/nostr_event_relay.py]. The relay is the list of the events
    published so far, newest first; a query returns the most recent event
    that passes the filter, or none. *)
Definition get_event (filters : Filters) (relay : list Event) : option Event :=
  List.find (passes filters) relay.

(** Modelled from the spec: [EventRelay.send_event], missing with
    [agentstr/nostr_event_relay.py]. Sending signs the event with the
    client's key and publishes it. *)
Definition send_event (public_key : string) (e : Event) (relay : list Event)
    : list Event :=
  sign public_key e :: relay.

(** ** The client *)

(** A client built with a private key; [public_key] is the hex form of its
    public key. *)
Record NostrClient : Type := mkNostrClient {
  relays : list string;
  public_key : string
}.

Section Client.
Context `{Pynostr}.

(** Lines 84-98. [get_public_key] maps a key to itself in hex form. *)
Definition get_metadata_for_pubkey (self : NostrClient) (public_key' : option string)
    (relay : list Event) : option Metadata :=
  let public_key' :=
    match public_key' with
    | Some pk => if py_bool (PyStr pk) then pk else public_key self
    | None => public_key self
    end in
  let filters := mkFilters [SET_METADATA] (Some [public_key']) 1 in
  match get_event filters relay with
  | Some event => Some (from_event event)
  | None => None
  end.

(** The ten optional keyword arguments of [update_metadata], in order. *)
Record profile_args : Type := mkArgs {
  arg_name : option string;
  arg_about : option string;
  arg_nip05 : option string;
  arg_picture : option string;
  arg_banner : option string;
  arg_lud16 : option string;
  arg_lud06 : option string;
  arg_username : option string;
  arg_display_name : option string;
  arg_website : option string
}.

Definition args_list (a : profile_args) : list (option string) :=
  [arg_name a; arg_about a; arg_nip05 a; arg_picture a; arg_banner a;
   arg_lud16 a; arg_lud06 a; arg_username a; arg_display_name a; arg_website a].

(** [if arg: metadata.attr = arg]: the value the attribute has afterwards. *)
Definition assign_if (arg : option string) (current : option string) : option string :=
  match arg with
  | Some v => if py_bool (PyStr v) then Some v else current
  | None => current
  end.

(** Lines 119-144: the metadata object as it is after [metadata.update()],
    together with what was fetched. [now] is [int(time.time())]. *)
Definition build_metadata (self : NostrClient) (a : profile_args) (now : Z)
    (relay : list Event) : option Metadata * Metadata :=
  let previous_metadata := get_metadata_for_pubkey self (Some (public_key self)) relay in
  let metadata := Metadata_new in
  let metadata :=
    match previous_metadata with
    | Some previous => set_metadata metadata (metadata_to_dict previous)
    | None => metadata
    end in
  let metadata :=
    mkMetadata
      (assign_if (arg_name a) (name metadata))
      (assign_if (arg_about a) (about metadata))
      (assign_if (arg_nip05 a) (nip05 metadata))
      (assign_if (arg_picture a) (picture metadata))
      (assign_if (arg_banner a) (banner metadata))
      (assign_if (arg_lud16 a) (lud16 metadata))
      (assign_if (arg_lud06 a) (lud06 metadata))
      (assign_if (arg_username a) (username metadata))
      (assign_if (arg_display_name a) (display_name metadata))
      (assign_if (arg_website a) (website metadata))
      (Some now)
      (content metadata) in
  (previous_metadata, update metadata).

(** The profile that is stored for the client: that of the metadata
    fetched from the relay, all [None] when there is none. *)
Definition stored_profile (previous_metadata : option Metadata) : list (option string) :=
  match previous_metadata with
  | Some previous => profile previous
  | None => profile Metadata_new
  end.

(** Line 145: the test that skips the publish. *)
Definition unchanged (previous_metadata : option Metadata) (metadata : Metadata) : bool :=
  match previous_metadata with
  | Some previous => bool_decide (content previous = content metadata)
  | None => false
  end.

(** Lines 100-149. The result is the relay after the call. *)
Definition update_metadata (self : NostrClient) (a : profile_args) (now : Z)
    (relay : list Event) : list Event :=
  let '(previous_metadata, metadata) := build_metadata self a now relay in
  if unchanged previous_metadata metadata then relay
  else send_event (public_key self) (to_event metadata) relay.

(** The number of events a call published. *)
Definition publishes (before after : list Event) : nat :=
  length after - length before.

End Client.

(** ** Send and wait *)

Record DecryptedMessage : Type := mkDecryptedMessage {
  event : Event;
  message : string
}.

(** Modelled from the spec: what [EventRelay.send_receive_message] comes
    back with, a decrypted reply or the no-response condition. The method
    is missing with [agentstr/nostr_event_relay.py]. *)
Inductive awaited : Type :=
| Reply (m : DecryptedMessage)
| NoResponse.

(** Modelled from the spec: the other side, seen from one send. [None]
    when nobody ever answers the message, otherwise the time the
    correlated reply takes to arrive and the reply. *)
Definition peer : Type := string -> string -> option string -> option (Z * DecryptedMessage).

(** Modelled from the spec: [EventRelay.send_receive_message] of
    [agentstr/nostr_event_relay.py], which is not among the sources. It
    sends the message, then waits until a reply correlated to the sent
    event arrives or [timeout] elapses, and on timeout fails with the
    no-response condition, which is not a reply. *)
Definition send_receive_message (network : peer) (message recipient_pubkey : string)
    (timeout : Z) (event_ref : option string) : awaited :=
  match network recipient_pubkey message event_ref with
  | Some (delay, reply) =>
      if (delay <=? timeout)%Z then Reply reply else NoResponse
  | None => NoResponse
  end.

(** Lines 160-167. *)
Definition send_direct_message_and_receive_response (self : NostrClient)
    (network : peer) (recipient_pubkey message : string) (timeout : Z)
    (event_ref : option string) : awaited :=
  send_receive_message network message recipient_pubkey timeout event_ref.

End nostr_client.

(** ** pynostr's [Metadata]

    pynostr is a separate package and not among the sources.
    [metadata_to_dict] and [set_metadata], with which the copy of lines
    121-122 is made, are written out as pynostr 0.7.0 behaves on the ten
    profile attributes: the dict has an entry for every attribute that is
    truthy, and an attribute is assigned when the dict has its key. The
    serialization is a small stand-in, used to run the client on concrete
    relays: the content writes each attribute that is carried over as
    [S], every character behind a dot, and a closing [!], and each other
    attribute as [N]. pynostr itself writes JSON. *)
Module pynostr_reference.
Import nostr_client.

Fixpoint write_chars (s : string) : string :=
  match s with
  | EmptyString => "!"
  | String c s' => String "."%char (String c (write_chars s'))
  end.

Definition write_attr (o : option string) : string :=
  match o with
  | None => "N"
  | Some s => String "S"%char (write_chars s)
  end.

Fixpoint write_attrs (l : list (option string)) : string :=
  match l with
  | [] => EmptyString
  | o :: l' => write_attr o +:+ write_attrs l'
  end.

Fixpoint read_chars (s : string) : option (string * string) :=
  match s with
  | String "!"%char rest => Some (EmptyString, rest)
  | String "."%char (String c s') =>
      '(v, rest) ← read_chars s'; Some (String c v, rest)
  | _ => None
  end.

Definition read_attr (s : string) : option (option string * string) :=
  match s with
  | String "N"%char rest => Some (None, rest)
  | String "S"%char rest => '(v, rest) ← read_chars rest; Some (Some v, rest)
  | _ => None
  end.

Fixpoint read_attrs (n : nat) (s : string) : option (list (option string)) :=
  match n with
  | O => Some []
  | S n => '(o, rest) ← read_attr s; l ← read_attrs n rest; Some (o :: l)
  end.

Definition with_profile (l : list (option string)) (m : Metadata) : Metadata :=
  match l with
  | [a; b; c; d; e; f; g; h; i; j] =>
      mkMetadata a b c d e f g h i j (created_at m) (content m)
  | _ => m
  end.

(** The entry [metadata_to_dict] makes for an attribute: an attribute
    that is not truthy is left out, so [None] and the empty string have no
    entry. *)
Definition entry (key : string) (attr : option string) : list (string * string) :=
  match attr with
  | Some v => if py_bool (PyStr v) then [(key, v)] else []
  | None => []
  end.

(** [Metadata.metadata_to_dict], for the ten profile attributes. *)
Definition metadata_to_dict (m : Metadata) : list (string * string) :=
  entry "name" (name m) ++ entry "about" (about m) ++ entry "nip05" (nip05 m)
  ++ entry "picture" (picture m) ++ entry "banner" (banner m)
  ++ entry "lud16" (lud16 m) ++ entry "lud06" (lud06 m)
  ++ entry "username" (username m) ++ entry "display_name" (display_name m)
  ++ entry "website" (website m).

Fixpoint dict_lookup (key : string) (d : list (string * string)) : option string :=
  match d with
  | [] => None
  | (k, v) :: rest => if String.eqb k key then Some v else dict_lookup key rest
  end.

(** [if key in metadata: self.attr = metadata[key]] *)
Definition assign_key (d : list (string * string)) (key : string)
    (current : option string) : option string :=
  match dict_lookup key d with
  | Some v => Some v
  | None => current
  end.

(** [Metadata.set_metadata]: the attributes that have a key in the dict
    are assigned, the others are left as they are. *)
Definition set_metadata (m : Metadata) (d : list (string * string)) : Metadata :=
  mkMetadata
    (assign_key d "name" (name m)) (assign_key d "about" (about m))
    (assign_key d "nip05" (nip05 m)) (assign_key d "picture" (picture m))
    (assign_key d "banner" (banner m)) (assign_key d "lud16" (lud16 m))
    (assign_key d "lud06" (lud06 m)) (assign_key d "username" (username m))
    (assign_key d "display_name" (display_name m)) (assign_key d "website" (website m))
    (created_at m) (content m).

Definition update (m : Metadata) : Metadata :=
  mkMetadata (name m) (about m) (nip05 m) (picture m) (banner m) (lud16 m)
    (lud06 m) (username m) (display_name m) (website m) (created_at m)
    (Some (write_attrs (kept <$> profile m))).

Definition to_event (m : Metadata) : Event :=
  mkEvent None SET_METADATA (content m) (created_at m).

Definition from_event (e : Event) : Metadata :=
  with_profile
    (default [] (event_content e ≫= read_attrs 10))
    (mkMetadata None None None None None None None None None None
       (event_created_at e) (event_content e)).

End pynostr_reference.

(** * Concrete inputs

    The agent cards, completion texts and callables the scenarios below
    run on. *)
Module examples.
Import a2a.

Definition quoted (s : string) : string := dq +:+ s +:+ dq.

(** A card with one skill priced at 100 and a base price of 50. *)
Definition translator : AgentCard :=
  mkAgentCard "Translator" "Translates text between languages"
    [mkSkill "translate" "Translate a text" (Some 100%Z)]
    (Some 50%Z) "npub1translator" ["wss://relay.example.org"].

(** A card with no skill and no base price. *)
Definition bare : AgentCard :=
  mkAgentCard "Bare" "Offers nothing" [] None "npub1bare" [].

(** A callable that answers every prompt with the same text. *)
Definition answers (text : string) : llm := fun _ _ => LLMReturn (PyStr text).

(** A callable that raises on every prompt. *)
Definition raises (e : exc) : llm := fun _ _ => LLMRaise e.

Definition reply (can_handle user_message skills_used : string) : string :=
  "{" +:+ quoted "can_handle" +:+ ":" +:+ can_handle +:+ ","
  +:+ quoted "user_message" +:+ ":" +:+ user_message +:+ ","
  +:+ quoted "skills_used" +:+ ":" +:+ skills_used +:+ "}".

Definition reply_translate : string :=
  reply "true" (quoted "I'll translate it.") ("[" +:+ quoted "translate" +:+ "]").

Definition reply_sure : string := reply "true" (quoted "Sure.") "[]".

(** Two calls in a row, "hello" and then "please translate". *)
Definition two_calls : list (string * AgentCard * llm) :=
  [("hello", translator, answers reply_sure);
   ("please translate", translator, answers reply_translate)].

(** An object whose [user_message] is [null]. *)
Definition reply_null_message : string := reply "true" "null" "[]".

(** An object with [can_handle] and nothing else. *)
Definition reply_can_handle_only : string := "{" +:+ quoted "can_handle" +:+ ":true}".

(** A client, and calls of [update_metadata] that pass one argument. *)
Definition alice : nostr_client.NostrClient :=
  nostr_client.mkNostrClient ["wss://relay.example.org"] "a1b2c3d4".

Definition only_name (v : string) : nostr_client.profile_args :=
  nostr_client.mkArgs (Some v) None None None None None None None None None.

Definition only_about (v : string) : nostr_client.profile_args :=
  nostr_client.mkArgs None (Some v) None None None None None None None None.

(** Nobody answers. *)
Definition silent : nostr_client.peer := fun _ _ _ => None.

End examples.

(** * Runs of calls on several threads *)
Module conversation.
Import a2a.

Section Run.
Context `{JSONDecoder}.

(** Calls issued one after the other, each with its own request, card,
    completion callable and thread id. The result is the store after the
    last call. *)
Fixpoint route_each (calls : list (string * AgentCard * llm * option string))
    (CHAT_HISTORY : gmap string string) : gmap string string :=
  match calls with
  | [] => CHAT_HISTORY
  | (user_message, agent_card, llm_callable, thread_id) :: rest =>
      route_each rest
        (agent_router user_message agent_card llm_callable thread_id CHAT_HISTORY).1
  end.

End Run.

End conversation.

(** * More concrete inputs *)
Module more_examples.
Import a2a examples.

(** A card with a skill that carries a negative price, a skill listed
    twice, and a base price. *)
Definition market : AgentCard :=
  mkAgentCard "Market" "Buys and sells"
    [mkSkill "discount" "Gives a discount" (Some (-30)%Z);
     mkSkill "Quote" "Quotes a price" None;
     mkSkill "quote" "Quotes a price" (Some 20%Z);
     mkSkill "QUOTE" "Quotes a price, premium" (Some 500%Z)]
    (Some 50%Z) "npub1market" ["wss://relay.example.org"].

(** Three calls on two threads and one without a thread. *)
Definition mixed_calls : list (string * AgentCard * llm * option string) :=
  [("first", translator, answers reply_sure, Some "t1");
   ("second", translator, raises (Exc KeyboardInterrupt EmptyString), Some "t2");
   ("third", translator, answers "no", None);
   ("fourth", translator, answers reply_translate, Some "t1")].

End more_examples.

(** * nostr_client.py: reading posts *)
Module nostr_posts.
Import nostr_client.

(** [pynostr.filters.Filters] as [read_posts_by_tag] fills it: the limit,
    the kinds, and the values asked for under each tag name. A value is
    [None] when the caller passed no tag at all. *)
Record TagFilters : Type := mkTagFilters {
  tag_limit : Z;
  tag_kinds : list EventKind;
  tag_values : list (string * list (option string))
}.

(** [filters.add_arbitrary_tag(tag, values)] *)
Definition add_arbitrary_tag (tag : string) (values : list (option string))
    (filters : TagFilters) : TagFilters :=
  mkTagFilters (tag_limit filters) (tag_kinds filters)
    (tag_values filters ++ [(tag, values)]).

(** Lines 50-52, the [messenger] property: the relay at [self.relays[0]].
    An empty list has no first element and the subscript raises
    [IndexError], an [Exception]. *)
Definition primary_relay (self : NostrClient) : res string :=
  match relays self with
  | [] => Raise (Exc OtherException "list index out of range")
  | url :: _ => Ok url
  end.

(** Lines 66-80. [EventRelay.get_events] is missing with
    [agentstr/nostr_event_relay.py] and is taken as a parameter: what the
    relay at a url answers to a filter. *)
Definition read_posts_by_tag (get_events : string -> TagFilters -> list Event)
    (self : NostrClient) (tag : option string) (tags : option (list string))
    (limit : Z) : res (list Event) :=
  let filters := mkTagFilters limit [TEXT_NOTE] [] in
  let filters :=
    add_arbitrary_tag "t"
      match tags with
      | Some (t :: l) => map Some (t :: l)
      | _ => [tag]
      end
      filters in
  url ← primary_relay self;
  Ok (get_events url filters).

End nostr_posts.

(** * nostr_rag.py *)
Module nostr_rag.
Import a2a nostr_client nostr_posts.

(** [s.startswith('#')] *)
Definition starts_with_hash (s : string) : bool :=
  match s with
  | String c _ => Ascii.eqb c "#"%char
  | EmptyString => false
  end.

(** [s.lstrip('#')] *)
Fixpoint lstrip_hash (s : string) : string :=
  match s with
  | String c s' => if Ascii.eqb c "#"%char then lstrip_hash s' else s
  | EmptyString => s
  end.

Fixpoint has_space (s : string) : bool :=
  match s with
  | EmptyString => false
  | String c s' => is_space c || has_space s'
  end.

(** [s.split()]: the maximal runs of characters that are not whitespace,
    in order. [cur] holds the characters of the run being read, last one
    first. *)
Fixpoint split_go (cur : string) (s : string) : list string :=
  match s with
  | EmptyString =>
      match cur with
      | EmptyString => []
      | _ => [String.rev cur]
      end
  | String c s' =>
      if is_space c then
        match cur with
        | EmptyString => split_go EmptyString s'
        | _ => String.rev cur :: split_go EmptyString s'
        end
      else split_go (String c cur) s'
  end.

Definition str_split (s : string) : list string := split_go EmptyString s.

(** [[f(x) for x in items]] where [f] may raise. *)
Fixpoint comprehension {A B : Type} (f : A -> res B) (items : list A) : res (list B) :=
  match items with
  | [] => Ok []
  | x :: rest =>
      y ← f x;
      ys ← comprehension f rest;
      Ok (y :: ys)
  end.

Section Rag.
Context `{JSONDecoder}.

(** [json.dumps] on a list of strings, from the Python standard
    library. *)
Variable json_dumps : list string -> string.

(** Lines 65-75: the prompt of [_select_hashtags]. *)
Definition hashtag_prompt (question : string) (previous_hashtags : option (list string))
    : string :=
  let history := json_dumps (default [] previous_hashtags) in
  nl +:+
  "You are a hashtag selector for Nostr. Given a question, suggest relevant hashtags that would help find relevant content." +:+ nl +:+
  "Return ONLY the hashtags in a JSON array format, like: [" +:+ dq +:+ "#hashtag1" +:+ dq +:+ ", " +:+ dq +:+ "#hashtag2" +:+ dq +:+ "]" +:+ nl +:+
  "Use at most 5 hashtags." +:+ nl +:+
  nl +:+
  "Question: " +:+ question +:+ nl +:+
  "Previous hashtags: " +:+ history +:+ nl.

(** Lines 55-89. [invoke] is [self.llm.invoke] followed by [.content]:
    the text of the reply, unless the call raises. The decoded value is
    returned as it is; only the fallback picks out hashtags. *)
Definition _select_hashtags (invoke : string -> res string) (question : string)
    (previous_hashtags : option (list string)) : res pyval :=
  let prompt := hashtag_prompt question previous_hashtags in
  content ← invoke prompt;
  match json_loads content with
  | Decoded hashtags => Ok hashtags
  | DecodeError _ =>
      let text := content in
      let hashtags := List.filter starts_with_hash (str_split text) in
      Ok (PyList (map PyStr (take 5 hashtags)))
  end.

(** Lines 115-116 of [build_knowledge_base]: the hashtags selected for the
    question, each without its leading [#] characters. *)
Definition build_knowledge_base_hashtags (invoke : string -> res string)
    (question : string) : res (list string) :=
  hashtags ← _select_hashtags invoke question None;
  items ← py_iter hashtags;
  comprehension (fun hashtag => s ← str_receiver hashtag "lstrip"; Ok (lstrip_hash s)) items.

(** Lines 104-128 of [build_knowledge_base], as to what it returns: the
    events [read_posts_by_tag] fetches for the hashtags. Lines 123-126,
    which feed the contents into the vector store on the way, are left
    out. *)
Definition build_knowledge_base (get_events : string -> TagFilters -> list Event)
    (self : NostrClient) (invoke : string -> res string) (question : string)
    (limit : Z) : res (list Event) :=
  hashtags ← build_knowledge_base_hashtags invoke question;
  read_posts_by_tag get_events self None (Some hashtags) limit.

End Rag.

End nostr_rag.

(** * Concrete inputs for the retrieval *)
Module rag_examples.
Import nostr_client nostr_posts nostr_rag.

(** A [json.dumps] stand-in for a run without earlier hashtags. *)
Definition dumps_nothing : list string -> string := fun _ => "[]".

(** A model that answers in prose. *)
Definition chatty : string -> res string :=
  fun _ => Ok "Try #nostr and ##bitcoin, maybe #zaps #relays #keys #nips too".

(** A relay that has nothing. *)
Definition empty_relay : string -> TagFilters -> list Event := fun _ _ => [].

End rag_examples.

(** * A standard output and inputs it cannot take

    The stream a Python process has by default on a UTF-8 terminal: the
    encoding is UTF-8 and the error handler is [strict], so a text is
    written unless it holds a surrogate, and then the write raises
    [UnicodeEncodeError]. *)
Module stdout_examples.
Import a2a a2a_stdout examples.

Definition decimal (n : nat) : string := NilZero.string_of_uint (Nat.to_uint n).

Definition hex_char (n : Z) : ascii :=
  if (n <? 10)%Z then byte (48 + n) else byte (87 + n).

(** The escape [\udxxx] under which the error names a surrogate. *)
Definition escape (n : Z) : string :=
  String "\"%char
    (String "u"%char
       (String (hex_char (n / 4096))
          (String (hex_char ((n / 256) mod 16))
             (String (hex_char ((n / 16) mod 16))
                (String (hex_char (n mod 16)) EmptyString))))).

(** The number of surrogates [s] starts with. *)
Fixpoint surrogate_run (s : string) : nat :=
  match s with
  | String _ (String _ (String _ rest)) =>
      match surrogate_head s with
      | Some _ => S (surrogate_run rest)
      | None => 0
      end
  | _ => 0
  end.

(** The first surrogate of [s]: its position, counted in characters from
    [pos] on, and the text from it on. *)
Fixpoint find_surrogate (s : string) (pos : nat) : option (nat * string) :=
  match s with
  | EmptyString => None
  | String c s' =>
      match surrogate_head s with
      | Some _ => Some (pos, s)
      | None => find_surrogate s' (if is_continuation c then pos else S pos)
      end
  end.

(** [str(e)] for the error raised on the surrogates at the head of
    [tail], the first of them at position [start]. *)
Definition surrogates_not_allowed (start : nat) (tail : string) : exc :=
  Exc UnicodeEncodeError
    ("'utf-8' codec can't encode "
     +:+ match surrogate_run tail with
         | 1 => "character '" +:+ escape (default 0%Z (surrogate_head tail))
                +:+ "' in position " +:+ decimal start
         | n => "characters in position " +:+ decimal start
                +:+ "-" +:+ decimal (start + n - 1)
         end
     +:+ ": surrogates not allowed").

(** The number of characters of [str(v)] for a value that is [None], a
    boolean, an integer or a string. The text of a float, a list or a
    dict is not modelled: [repr] writes no surrogate, so such a value
    never makes the write fail, and it is counted for no character in a
    position that comes after it. *)
Definition str_length (v : pyval) : nat :=
  match v with
  | PyNone => 4
  | PyBool true => 4
  | PyBool false => 5
  | PyInt n => String.length (NilZero.string_of_int (Z.to_int n))
  | PyStr s => code_points s
  | PyFloat _ | PyList _ | PyDict _ => 0
  end.

(** A write, part by part, [pos] characters into the text. A part that is
    a string is written as it is; a surrogate inside a list or a dict is
    escaped by [repr] and passes. *)
Fixpoint utf8_write (parts : list pyval) (pos : nat) : res unit :=
  match parts with
  | [] => Ok tt
  | v :: rest =>
      match match v with PyStr s => find_surrogate s pos | _ => None end with
      | Some (start, tail) => Raise (surrogates_not_allowed start tail)
      | None => utf8_write rest (pos + str_length v)
      end
  end.

Definition utf8_stdout : Stdout := fun parts => utf8_write parts 0.

(** The surrogate U+D83D, the first half of an emoji that was cut in
    two, and the way a JSON text writes it. *)
Definition lone_surrogate : string := utf8 55357.

Definition escaped_surrogate : string := String "\"%char "ud83d".

(** A completion that accepts, names the skill, and has the surrogate as
    its message. *)
Definition reply_surrogate : string :=
  reply "true" (quoted escaped_surrogate) ("[" +:+ quoted "translate" +:+ "]").

(** An object that has the surrogate as its message and nothing else. *)
Definition reply_surrogate_only : string :=
  "{" +:+ quoted "user_message" +:+ ":" +:+ quoted escaped_surrogate +:+ "}".

(** A completion that names the skill in capitals. *)
Definition reply_capitals : string :=
  reply "true" (quoted "Ok.") ("[" +:+ quoted "TRANSLATE" +:+ "]").

(** A request that ends in the surrogate U+D800. *)
Definition request_surrogate : string := "caf" +:+ utf8 55296.

(** [Exception("boom \ud83d")] *)
Definition boom : exc := Exc OtherException ("boom " +:+ lone_surrogate).

End stdout_examples.

(** * nostr_client.py on pynostr 0.7.0

    Lines 120-143 of [update_metadata], with the copy of lines 121-122
    made by the two methods of pynostr's [Metadata] as they are written
    out in [pynostr_reference]. *)
Module nostr_client_copy.
Import nostr_client.

(** Lines 120-122: a fresh [Metadata()] that takes over what was
    fetched. *)
Definition copy_previous (previous_metadata : option Metadata) : Metadata :=
  let metadata := Metadata_new in
  match previous_metadata with
  | Some previous =>
      pynostr_reference.set_metadata metadata (pynostr_reference.metadata_to_dict previous)
  | None => metadata
  end.

(** Lines 123-143: the ten guarded assignments and the timestamp. *)
Definition assign_arguments (a : profile_args) (now : Z) (metadata : Metadata)
    : Metadata :=
  mkMetadata
    (assign_if (arg_name a) (name metadata))
    (assign_if (arg_about a) (about metadata))
    (assign_if (arg_nip05 a) (nip05 metadata))
    (assign_if (arg_picture a) (picture metadata))
    (assign_if (arg_banner a) (banner metadata))
    (assign_if (arg_lud16 a) (lud16 metadata))
    (assign_if (arg_lud06 a) (lud06 metadata))
    (assign_if (arg_username a) (username metadata))
    (assign_if (arg_display_name a) (display_name metadata))
    (assign_if (arg_website a) (website metadata))
    (Some now)
    (content metadata).

(** A stored profile with the name "Alice", and one whose name is the
    empty string. *)
Definition stored_alice : Metadata :=
  mkMetadata (Some "Alice") None None None None None None None None None
    (Some 100%Z) None.

Definition stored_blank : Metadata :=
  mkMetadata (Some EmptyString) (Some "Routes requests") None None None None None None
    None None (Some 100%Z) None.

End nostr_client_copy.

(** * Facts about string concatenation *)

Lemma append_cons (x : ascii) (a b : string) : String x a +:+ b = String x (a +:+ b).
Proof. reflexivity. Qed.

Lemma append_assoc (a b c : string) : (a +:+ b) +:+ c = a +:+ (b +:+ c).
Proof. induction a as [|x a IH]; [done | by rewrite !append_cons, IH]. Qed.

Lemma append_empty_r (a : string) : a +:+ EmptyString = a.
Proof. induction a as [|x a IH]; [done | by rewrite append_cons, IH]. Qed.

(** * Properties of the router *)
Module a2a_proofs.
Import a2a examples.

(** ** Facts about the string methods *)

Lemma find_from_absent (c : ascii) (s : string) (i : Z) :
  has_char c s = false -> find_from c s i = (-1)%Z.
Proof.
  revert i. induction s as [|a s IH]; intros i Hc; simpl in *; [done|].
  apply orb_false_iff in Hc as [Ha Hs]. rewrite Ha. by apply IH.
Qed.

Lemma rfind_from_absent (c : ascii) (s : string) (i last : Z) :
  has_char c s = false -> rfind_from c s i last = last.
Proof.
  revert i last. induction s as [|a s IH]; intros i last Hc; simpl in *; [done|].
  apply orb_false_iff in Hc as [Ha Hs]. rewrite Ha. by apply IH.
Qed.

Lemma substring_none (n : nat) (s : string) : substring n 0 s = EmptyString.
Proof.
  revert n. induction s as [|a s IH]; intros [|n]; simpl; auto.
Qed.

(** A text without braces is cut down to the empty string: [find] and
    [rfind] both answer [-1], and the slice [s[-1:0]] is empty. *)
Lemma first_to_last_brace_plain (s : string) :
  has_char "{"%char s = false -> has_char "}"%char s = false ->
  first_to_last_brace s = EmptyString.
Proof.
  intros Ho Hc. unfold first_to_last_brace, str_find, str_rfind, str_slice.
  rewrite (find_from_absent _ _ _ Ho), (rfind_from_absent _ _ _ _ Hc).
  set (len := Z.of_nat (String.length s)).
  assert (Hz : Z.to_nat (slice_index len (-1 + 1) - slice_index len (-1)) = 0%nat).
  { unfold slice_index. simpl. lia. }
  rewrite Hz. apply substring_none.
Qed.

(** ** The conversation store *)

Lemma thread_key_nonempty (t : string) : t <> EmptyString -> thread_key (Some t) = Some t.
Proof.
  intros Ht. unfold thread_key, py_bool.
  destruct (String.eqb_spec t ""); [done | reflexivity].
Qed.

Lemma check_history_thread (user_message t : string) (CHAT_HISTORY : gmap string string) :
  t <> EmptyString ->
  check_history user_message (Some t) CHAT_HISTORY
  = (combined CHAT_HISTORY t user_message,
     <[t := combined CHAT_HISTORY t user_message]> CHAT_HISTORY).
Proof.
  intros Ht. unfold check_history, combined. by rewrite thread_key_nonempty.
Qed.

Section Router.
Context `{JSONDecoder}.

(** The router, split at the call to the completion callable. *)
Lemma agent_router_eq (user_message : string) (agent_card : AgentCard)
    (llm_callable : llm) (thread_id : option string) (CHAT_HISTORY : gmap string string) :
  agent_router user_message agent_card llm_callable thread_id CHAT_HISTORY
  = let h := check_history user_message thread_id CHAT_HISTORY in
    (h.2, outer_handler
            (route_response agent_card (llm_callable h.2 (build_prompt agent_card h.1)))).
Proof. unfold agent_router. by destruct (check_history _ _ _). Qed.

Lemma agent_router_thread (user_message : string) (agent_card : AgentCard)
    (llm_callable : llm) (t : string) (CHAT_HISTORY : gmap string string) :
  t <> EmptyString ->
  agent_router user_message agent_card llm_callable (Some t) CHAT_HISTORY
  = let text := combined CHAT_HISTORY t user_message in
    let store := <[t := text]> CHAT_HISTORY in
    (store, outer_handler
              (route_response agent_card
                 (llm_callable store (build_prompt agent_card text)))).
Proof. intros Ht. by rewrite agent_router_eq, check_history_thread. Qed.

(** ** Accumulated text *)

Lemma concat_merge (sep a b : string) (l : list string) :
  String.concat sep ((a +:+ sep +:+ b) :: l) = String.concat sep (a :: b :: l).
Proof.
  destruct l as [|x l]; [done|].
  change (String.concat sep ((a +:+ sep +:+ b) :: x :: l))
    with ((a +:+ sep +:+ b) +:+ sep +:+ String.concat sep (x :: l)).
  change (String.concat sep (a :: b :: x :: l))
    with (a +:+ sep +:+ b +:+ sep +:+ String.concat sep (x :: l)).
  by rewrite !append_assoc.
Qed.

Lemma accumulated_combined (CHAT_HISTORY : gmap string string) (t r : string)
    (requests : list string) :
  accumulated (Some (combined CHAT_HISTORY t r)) requests
  = accumulated (CHAT_HISTORY !! t) (r :: requests).
Proof.
  unfold accumulated, combined.
  destruct (CHAT_HISTORY !! t) as [history|]; [|done].
  change (String.concat blank_line ((history +:+ nl +:+ nl +:+ r) :: requests)
          = String.concat blank_line (history :: r :: requests)).
  rewrite <- concat_merge.
  unfold blank_line. by rewrite !append_assoc.
Qed.

Lemma route_all_accumulates (calls : list (string * AgentCard * llm)) (t : string)
    (CHAT_HISTORY : gmap string string) :
  t <> EmptyString -> calls <> [] ->
  route_all calls (Some t) CHAT_HISTORY !! t
  = Some (accumulated (CHAT_HISTORY !! t) (map (fun c => c.1.1) calls)).
Proof.
  intros Ht. revert CHAT_HISTORY.
  induction calls as [|[[r card] f] rest IH]; intros CHAT_HISTORY Hne; [done|].
  cbn [route_all map fst]. rewrite agent_router_thread by done. cbn [fst].
  destruct rest as [|c rest].
  - cbn [route_all map]. by rewrite lookup_insert_eq, <- accumulated_combined.
  - rewrite IH by done. rewrite lookup_insert_eq. by rewrite accumulated_combined.
Qed.

(** ** The prompt *)

Lemma precedes_in_context (a b s p q : string) :
  precedes_in a b s -> precedes_in a b (p +:+ s +:+ q).
Proof.
  intros (u & v & w & ->). exists (p +:+ u), v, (w +:+ q).
  by rewrite !append_assoc.
Qed.

Lemma build_prompt_context (agent_card : AgentCard) :
  exists p q, forall text, build_prompt agent_card text = p +:+ text +:+ q.
Proof.
  exists ((prompt_header agent_card +:+ prompt_skills (skills agent_card))
          +:+ nl +:+ nl +:+ "User Request History: " +:+ nl +:+ nl),
         (nl +:+ nl +:+ prompt_instructions).
  intros text. unfold build_prompt. by rewrite !append_assoc.
Qed.

Lemma build_prompt_precedes (agent_card : AgentCard) (a b text : string) :
  precedes_in a b text -> precedes_in a b (build_prompt agent_card text).
Proof.
  intros Hp. destruct (build_prompt_context agent_card) as (p & q & ->).
  by apply precedes_in_context.
Qed.

(** ** Pricing *)

Lemma match_skill_str (card_skills : list Skill) (n : string) (skill_cost : Z) :
  match_skill card_skills (PyStr n) skill_cost
  = Ok (skill_cost
        + default 0
            (skill ← List.find
                      (fun skill => matches_name skill n
                                    && bool_decide (is_Some (skill_satoshis skill)))
                      card_skills;
             skill_satoshis skill))%Z.
Proof.
  induction card_skills as [|skill rest IH]; cbn [match_skill List.find].
  - cbn. f_equal. lia.
  - cbn [str_receiver mbind res_bind]. unfold matches_name at 1.
    destruct (skill_satoshis skill) as [price|] eqn:Hprice.
    + destruct (String.eqb_spec (str_lower (skill_name skill)) (str_lower n)) as [Heq|Hne].
      * rewrite bool_decide_eq_true_2 by done.
        rewrite bool_decide_eq_true_2 by eauto. cbn. by rewrite Hprice.
      * rewrite (bool_decide_eq_false_2 _ Hne). cbn [andb]. apply IH.
    + rewrite andb_comm. rewrite bool_decide_eq_false_2 by (intros [? ?]; done).
      cbn [andb]. apply IH.
Qed.

Lemma sum_skills_names (agent_card : AgentCard) (names : list string) (skill_cost : Z) :
  sum_skills (skills agent_card) (map PyStr names) skill_cost
  = Ok (skill_cost + skillCost agent_card names)%Z.
Proof.
  revert skill_cost. induction names as [|n names IH]; intros skill_cost.
  - cbn. f_equal. lia.
  - cbn [map sum_skills]. rewrite match_skill_str. cbn [mbind res_bind].
    rewrite IH. f_equal. unfold skillCost, matched_price. cbn [map foldr]. lia.
Qed.

Lemma compute_cost_names (agent_card : AgentCard) (can_handle : pyval)
    (names : list string) :
  py_bool can_handle = true ->
  compute_cost agent_card can_handle (PyList (map PyStr names))
  = Ok (priced agent_card names).
Proof.
  intros Hc. unfold compute_cost, priced. rewrite Hc.
  destruct names as [|n names].
  - cbn. by destruct (satoshis agent_card).
  - replace (py_bool (PyList (map PyStr (n :: names)))) with true by reflexivity.
    cbn [py_iter mbind res_bind]. rewrite sum_skills_names.
    cbn [mbind res_bind]. rewrite Z.add_0_l.
    set (P := skillCost agent_card (n :: names)).
    destruct (Z.ltb_spec 0 P); case_bool_decide; try lia;
      destruct (satoshis agent_card); cbn; f_equal; lia.
Qed.

Lemma compute_cost_declined (agent_card : AgentCard) (can_handle skills_used : pyval) :
  py_bool can_handle = false -> compute_cost agent_card can_handle skills_used = Ok 0%Z.
Proof. intros Hc. unfold compute_cost. by rewrite Hc. Qed.

(** ** What the body of the inner [try] can raise *)

Lemma match_skill_raises (card_skills : list Skill) (v : pyval) (skill_cost : Z) (e : exc) :
  match_skill card_skills v skill_cost = Raise e -> exc_type e = AttributeError.
Proof.
  induction card_skills as [|skill rest IH]; cbn [match_skill]; [done|].
  destruct v; cbn [str_receiver mbind res_bind]; try (intros [= <-]; reflexivity).
  destruct (skill_satoshis skill); [|done].
  by destruct (String.eqb _ _).
Qed.

Lemma sum_skills_raises (card_skills : list Skill) (names : list pyval)
    (skill_cost : Z) (e : exc) :
  sum_skills card_skills names skill_cost = Raise e -> exc_type e = AttributeError.
Proof.
  revert skill_cost. induction names as [|v names IH]; intros skill_cost; [done|].
  cbn [sum_skills].
  destruct (match_skill card_skills v skill_cost) as [c|e'] eqn:Hm; cbn [mbind res_bind].
  - apply IH.
  - intros [= <-]. by eapply match_skill_raises.
Qed.

Lemma compute_cost_raises (agent_card : AgentCard) (can_handle skills_used : pyval)
    (e : exc) :
  compute_cost agent_card can_handle skills_used = Raise e ->
  exc_type e = AttributeError \/ exc_type e = TypeError.
Proof.
  unfold compute_cost. destruct (py_bool can_handle); [|done].
  destruct (py_bool skills_used); [|done].
  destruct (py_iter skills_used) as [names|e'] eqn:Hi; cbn [mbind res_bind].
  - destruct (sum_skills _ names 0%Z) as [c|e'] eqn:Hs; cbn [mbind res_bind]; [done|].
    intros [= <-]. left. by eapply sum_skills_raises.
  - intros [= <-]. right. by destruct skills_used; simplify_eq/=.
Qed.

(** The inner [try] either produces the tuple built from the decoded
    object, or raises: [JSONDecodeError] from the decoder, or an
    [AttributeError] or [TypeError] from the use of the decoded values. *)
Lemma parse_response_raises (agent_card : AgentCard) (response : string) (e : exc) :
  parse_response agent_card response = Raise e ->
  (exists msg, json_loads (str_strip response) = DecodeError msg /\
               e = Exc JSONDecodeError msg) \/
  exc_type e = AttributeError \/ exc_type e = TypeError.
Proof.
  unfold parse_response. destruct (json_loads _) as [result|msg].
  - destruct result; cbn [py_get mbind res_bind];
      try (intros [= <-]; right; left; reflexivity).
    destruct (compute_cost _ _ _) as [c|e'] eqn:Hc; cbn [mbind res_bind]; [done|].
    intros [= <-]. right. by eapply compute_cost_raises.
  - intros [= <-]. left. eauto.
Qed.

Lemma parse_response_ok (agent_card : AgentCard) (response : string) (d : RouterDecision) :
  parse_response agent_card response = Ok d ->
  compute_cost agent_card (canHandle d) (skillsUsed d) = Ok (costUnits d).
Proof.
  unfold parse_response. destruct (json_loads _) as [result|msg]; [|done].
  destruct result; cbn [py_get mbind res_bind]; try done.
  destruct (compute_cost _ _ _) as [c|e'] eqn:Hc; cbn [mbind res_bind]; [|done].
  by intros [= <-].
Qed.

Lemma parse_response_dict (agent_card : AgentCard) (response : string)
    (entries : list (string * pyval)) :
  json_loads (str_strip response) = Decoded (PyDict entries) ->
  parse_response agent_card response
  = (cost ← compute_cost agent_card
             (dict_get entries "can_handle" (PyBool false))
             (dict_get entries "skills_used" (PyList []));
     Ok (dict_get entries "can_handle" (PyBool false), cost,
         dict_get entries "user_message" (PyStr ""),
         dict_get entries "skills_used" (PyList []))).
Proof. intros Hd. unfold parse_response. by rewrite Hd. Qed.

(** Every decision that comes back with a falsy [can_handle] costs
    nothing. *)
Lemma route_response_declined (agent_card : AgentCard) (reply : llm_outcome)
    (d : RouterDecision) :
  outer_handler (route_response agent_card reply) = Returned d ->
  py_bool (canHandle d) = false -> costUnits d = 0%Z.
Proof.
  unfold outer_handler.
  destruct (route_response agent_card reply) as [d'|e] eqn:Hr.
  - intros [= <-] Hc. destruct reply as [v|e]; [|done].
    cbn [route_response] in Hr. destruct v; try done.
    cbn [str_receiver mbind res_bind] in Hr. unfold inner_handler in Hr.
    destruct (parse_response _ _) as [d''|e] eqn:Hp.
    + injection Hr as <-. apply parse_response_ok in Hp.
      rewrite compute_cost_declined in Hp by done. by injection Hp.
    + destruct (isinstance_ValueError e); [|done]. by injection Hr as <-.
  - destruct (isinstance_Exception e); [|done]. by intros [= <-].
Qed.

(** C10 (amended): for every call carrying a non-empty thread id, the
    entry of that thread is replaced with the combined text before the
    completion callable is invoked: the callable runs against a store
    that already holds the combined text, and the store the call leaves
    holds it whatever the outcome is, the error-recovery decision of
    either handler and a propagated exception included. *)
Theorem store_replaced_before_invocation (user_message : string)
    (agent_card : AgentCard) (llm_callable : llm) (t : string)
    (CHAT_HISTORY : gmap string string) :
  t <> EmptyString ->
  let text :=
    match CHAT_HISTORY !! t with
    | Some history => history +:+ nl +:+ nl +:+ user_message
    | None => user_message
    end in
  let store := <[t := text]> CHAT_HISTORY in
  store !! t = Some text /\
  agent_router user_message agent_card llm_callable (Some t) CHAT_HISTORY
  = (store,
     outer_handler
       (route_response agent_card (llm_callable store (build_prompt agent_card text)))) /\
  (agent_router user_message agent_card llm_callable (Some t) CHAT_HISTORY).1 !! t
  = Some text.
Proof.
  intros Ht text store. rewrite agent_router_thread by done.
  fold (combined CHAT_HISTORY t user_message). cbn [fst].
  split_and!; try done; apply lookup_insert_eq.
Qed.

(** C2 (amended): for every run of calls sharing the same non-empty thread
    id, the text stored for the thread after a call is the previously
    stored text, if any, a blank line, and the newest raw request; after
    the whole run it is the prior text and the requests in call order,
    joined by blank lines. After [route("hello", .., "t1")] and then
    [route("please translate", .., "t1")], the prompt handed to the second
    callable has "hello" before "please translate". *)
Theorem accumulated_text_in_call_order :
  (forall t : string, t <> EmptyString ->
     (forall user_message agent_card llm_callable (CHAT_HISTORY : gmap string string),
        (agent_router user_message agent_card llm_callable (Some t) CHAT_HISTORY).1 !! t
        = Some match CHAT_HISTORY !! t with
               | Some previous => previous +:+ nl +:+ nl +:+ user_message
               | None => user_message
               end) /\
     (forall calls (CHAT_HISTORY : gmap string string), calls <> [] ->
        route_all calls (Some t) CHAT_HISTORY !! t
        = Some (accumulated (CHAT_HISTORY !! t) (map (fun c => c.1.1) calls)))) /\
  (forall model1 llm1 model2 (CHAT_HISTORY : gmap string string),
     let after_hello :=
       (agent_router "hello" model1 llm1 (Some "t1") CHAT_HISTORY).1 in
     exists prompt,
       precedes_in "hello" "please translate" prompt /\
       forall llm2, exists store,
         agent_router "please translate" model2 llm2 (Some "t1") after_hello
         = (store, outer_handler (route_response model2 (llm2 store prompt)))).
Proof.
  split.
  - intros t Ht. split.
    + intros. rewrite agent_router_thread by done. apply lookup_insert_eq.
    + intros. by apply route_all_accumulates.
  - intros model1 llm1 model2 CHAT_HISTORY after_hello.
    set (text := combined after_hello "t1" "please translate").
    exists (build_prompt model2 text). split.
    + apply build_prompt_precedes. unfold text, after_hello, combined.
      rewrite agent_router_thread by done. cbn [fst]. rewrite lookup_insert_eq.
      unfold combined. destruct (CHAT_HISTORY !! "t1") as [history|].
      * exists (history +:+ nl +:+ nl), (nl +:+ nl), EmptyString.
        by rewrite !append_assoc, append_empty_r.
      * exists EmptyString, (nl +:+ nl), EmptyString.
        by rewrite !append_assoc, append_empty_r.
    + intros llm2. eexists. by rewrite agent_router_thread.
Qed.

(** What the router computes for a completion text that decodes to an
    object whose [can_handle] is true: the cost is the sum, over the
    names in [skills_used], of the price of the card's skill that matches
    the name up to case and has a price set, counted only when that sum
    is strictly positive, plus the card's base price if set; and every
    decision whose [can_handle] is false costs 0. *)
Lemma cost_of_decision (user_message : string) (agent_card : AgentCard)
    (llm_callable : llm) (thread_id : option string)
    (CHAT_HISTORY : gmap string string) :
  let h := check_history user_message thread_id CHAT_HISTORY in
  let result :=
    (agent_router user_message agent_card llm_callable thread_id CHAT_HISTORY).2 in
  (forall text entries names,
     llm_callable h.2 (build_prompt agent_card h.1) = LLMReturn (PyStr text) ->
     json_loads (str_strip (first_to_last_brace text)) = Decoded (PyDict entries) ->
     py_bool (dict_get entries "can_handle" (PyBool false)) = true ->
     dict_get entries "skills_used" (PyList []) = PyList (map PyStr names) ->
     exists d,
       result = Returned d /\
       canHandle d = dict_get entries "can_handle" (PyBool false) /\
       costUnits d
       = ((if bool_decide (0 < skillCost agent_card names)%Z
           then skillCost agent_card names else 0)
          + default 0 (satoshis agent_card))%Z) /\
  (forall d, result = Returned d -> py_bool (canHandle d) = false -> costUnits d = 0%Z).
Proof.
  intros h result. unfold result. rewrite agent_router_eq. fold h. cbn [snd].
  split.
  - intros text entries names Hreply Hdec Hcan Hskills. rewrite Hreply.
    cbn [route_response str_receiver mbind res_bind].
    rewrite (parse_response_dict _ _ _ Hdec), Hskills, compute_cost_names by done.
    cbn [mbind res_bind inner_handler outer_handler]. eexists. split; [done|].
    split; reflexivity.
  - intros d. apply route_response_declined.
Qed.

(** What the router computes when the completion callable returns,
    whatever it returns, or raises an exception derived from [Exception]:
    a decision; a failed invocation, a reply that is not a string and a
    text that does not decode each give [can_handle] false, cost 0, a
    message made of a fixed prefix and the text of the error, and an
    empty [skills_used]. *)
Lemma router_returns_decision (user_message : string) (agent_card : AgentCard)
    (llm_callable : llm) (thread_id : option string)
    (CHAT_HISTORY : gmap string string) :
  let h := check_history user_message thread_id CHAT_HISTORY in
  let reply := llm_callable h.2 (build_prompt agent_card h.1) in
  let result :=
    (agent_router user_message agent_card llm_callable thread_id CHAT_HISTORY).2 in
  (forall e, reply = LLMRaise e -> isinstance_Exception e = true) ->
  (exists d, result = Returned d) /\
  (forall e, reply = LLMRaise e ->
     result = Returned (PyBool false, 0%Z,
                        PyStr ("Error in agent routing: " +:+ exc_str e), PyList [])) /\
  (forall v, reply = LLMReturn v -> (forall text, v <> PyStr text) ->
     exists detail,
       result = Returned (PyBool false, 0%Z,
                          PyStr ("Error in agent routing: " +:+ detail), PyList [])) /\
  (forall text msg, reply = LLMReturn (PyStr text) ->
     json_loads (str_strip (first_to_last_brace text)) = DecodeError msg ->
     result = Returned (PyBool false, 0%Z,
                        PyStr ("Error parsing LLM response: " +:+ msg), PyList [])).
Proof.
  intros h reply result Hexc. unfold result. rewrite agent_router_eq.
  fold h. cbn [snd]. fold reply. split_and!.
  - destruct reply as [v|e] eqn:Hreply; cbn [route_response].
    + destruct v; cbn [str_receiver mbind res_bind outer_handler];
        try (eexists; reflexivity).
      unfold inner_handler.
      destruct (parse_response _ _) as [d|e] eqn:Hp; [by eexists|].
      apply parse_response_raises in Hp as [(msg & _ & ->)|Hp]; [by eexists|].
      destruct e as [[] ?]; cbn in Hp |- *; destruct Hp; simplify_eq; by eexists.
    + cbn [outer_handler]. rewrite (Hexc e) by done. by eexists.
  - intros e Hreply. rewrite Hreply. cbn [route_response outer_handler].
    by rewrite (Hexc e) by (by rewrite <- Hreply).
  - intros v Hreply Hv. rewrite Hreply. cbn [route_response].
    destruct v; cbn [str_receiver mbind res_bind outer_handler];
      try (eexists; reflexivity).
    by destruct (Hv s).
  - intros text msg Hreply Hdec. rewrite Hreply.
    cbn [route_response str_receiver mbind res_bind].
    unfold parse_response. by rewrite Hdec.
Qed.

(** What the router computes for a completion text with no braces:
    [can_handle] false, cost 0, a message that starts with "Error parsing
    LLM response: ", and an empty [skills_used]; and for a text that
    decodes to an object without [can_handle]: [can_handle] false and
    cost 0, with the [user_message] and [skills_used] of the object, or
    the empty string and the empty list when it has none. *)
Lemma malformed_completion (user_message : string) (agent_card : AgentCard)
    (llm_callable : llm) (thread_id : option string)
    (CHAT_HISTORY : gmap string string) :
  let h := check_history user_message thread_id CHAT_HISTORY in
  let reply := llm_callable h.2 (build_prompt agent_card h.1) in
  let result :=
    (agent_router user_message agent_card llm_callable thread_id CHAT_HISTORY).2 in
  (forall text, reply = LLMReturn (PyStr text) ->
     has_char "{"%char text = false -> has_char "}"%char text = false ->
     exists msg,
       result = Returned (PyBool false, 0%Z,
                          PyStr ("Error parsing LLM response: " +:+ msg), PyList [])) /\
  (forall text entries, reply = LLMReturn (PyStr text) ->
     json_loads (str_strip (first_to_last_brace text)) = Decoded (PyDict entries) ->
     assoc "can_handle" entries = None ->
     result = Returned (PyBool false, 0%Z,
                        dict_get entries "user_message" (PyStr ""),
                        dict_get entries "skills_used" (PyList []))).
Proof.
  intros h reply result. unfold result. rewrite agent_router_eq.
  fold h. cbn [snd]. fold reply. split.
  - intros text Hreply Ho Hc. rewrite Hreply.
    cbn [route_response str_receiver mbind res_bind].
    unfold parse_response. rewrite first_to_last_brace_plain by done.
    change (str_strip EmptyString) with EmptyString.
    destruct json_loads_empty as [msg ->]. by exists msg.
  - intros text entries Hreply Hdec Hnone. rewrite Hreply.
    cbn [route_response str_receiver mbind res_bind].
    rewrite (parse_response_dict _ _ _ Hdec).
    assert (Hch : dict_get entries "can_handle" (PyBool false) = PyBool false)
      by (unfold dict_get; by rewrite Hnone).
    rewrite !Hch. by rewrite compute_cost_declined.
Qed.

(** C9 (amended): [agent_router_v2] leaves the conversation store exactly
    as [agent_router] does on the same input; when the tuple of
    [agent_router] holds a bool, a string and a list of strings, the
    fields of the [RouterResponse] are the four components of the tuple;
    and what [agent_router] lets through reaches the caller of
    [agent_router_v2] too. *)
Theorem agent_router_v2_agrees (user_message : string) (agent_card : AgentCard)
    (llm_callable : llm) (thread_id : option string)
    (CHAT_HISTORY : gmap string string) :
  let v1 := agent_router user_message agent_card llm_callable thread_id CHAT_HISTORY in
  let v2 := agent_router_v2 user_message agent_card llm_callable thread_id CHAT_HISTORY in
  v2.1 = v1.1 /\
  (forall b c text names,
     v1.2 = Returned (PyBool b, c, PyStr text, PyList (map PyStr names)) ->
     exists response,
       v2.2 = Returned response /\
       can_handle response = b /\ cost_sats response = c /\
       a2a.user_message response = text /\ skills_used response = names) /\
  (forall e, v1.2 = Propagated e -> v2.2 = Propagated e).
Proof.
  intros v1 v2. unfold v2, agent_router_v2. fold v1. destruct v1 as [store r].
  cbn [fst snd]. split_and!; [done| |].
  - intros b c text names ->. unfold RouterResponse_init.
    cbn [validate_bool validate_str validate_list_str mbind res_bind].
    assert (Hitems : validate_items "skills_used" (map PyStr names) = Ok names).
    { induction names as [|n names IH]; [done|].
      cbn [map validate_items validate_str mbind res_bind]. by rewrite IH. }
    rewrite Hitems. cbn [mbind res_bind]. by eexists.
  - by intros e ->.
Qed.

End Router.

(** C9, at a concrete input: the scenario of the specification. *)
Lemma agent_router_v2_agrees_witness :
  exists response,
    (agent_router_v2 "translate this" translator (answers reply_translate) None ∅).2
    = Returned response /\
    can_handle response = true /\ cost_sats response = 150%Z /\
    a2a.user_message response = "I'll translate it." /\
    skills_used response = ["translate"].
Proof.
  exact (proj1 (proj2 (agent_router_v2_agrees "translate this" translator
                         (answers reply_translate) None ∅))
           true 150%Z "I'll translate it." ["translate"] eq_refl).
Defined.

(** C9, as stated, fails when the decoded object holds a value of
    another type: [agent_router] returns the tuple with [None] as its
    message, and [agent_router_v2] raises the validation error of the
    [RouterResponse] constructor instead of returning. *)
Lemma ill_typed_field_raises :
  (agent_router "translate this" translator (answers reply_null_message) None ∅).2
  = Returned (PyBool true, 50%Z, PyNone, PyList []) /\
  (agent_router_v2 "translate this" translator (answers reply_null_message) None ∅).2
  = Propagated (ValidationError "user_message").
Proof. split; reflexivity. Qed.

(** ** The scenarios of the specification, run through the reference
    decoder *)

Example scenario_no_skill_used :
  (agent_router "translate this" translator (answers reply_sure) None ∅).2
  = Returned (PyBool true, 50%Z, PyStr "Sure.", PyList []).
Proof. reflexivity. Qed.

Example scenario_bare_card :
  (agent_router "translate this" bare (answers reply_can_handle_only) None ∅).2
  = Returned (PyBool true, 0%Z, PyStr EmptyString, PyList []).
Proof. reflexivity. Qed.

Example scenario_upper_case_name :
  (agent_router "translate this" translator
     (answers (reply "true" (quoted "Ok.") ("[" +:+ quoted "TRANSLATE" +:+ "]")))
     None ∅).2
  = Returned (PyBool true, 150%Z, PyStr "Ok.", PyList [PyStr "TRANSLATE"]).
Proof. reflexivity. Qed.

Example scenario_prose_around_object :
  (agent_router "translate this" translator
     (answers ("Here is my answer: " +:+ reply_translate +:+ " Hope that helps."))
     None ∅).2
  = Returned (PyBool true, 150%Z, PyStr "I'll translate it.",
              PyList [PyStr "translate"]).
Proof. reflexivity. Qed.

Example scenario_skills_not_a_list :
  (agent_router "translate this" translator
     (answers (reply "true" (quoted "Ok.") "5")) None ∅).2
  = Returned (PyBool false, 0%Z,
              PyStr "Error in agent routing: 'int' object is not iterable", PyList []).
Proof. reflexivity. Qed.

(** C10, at a concrete input: the callable fails, the call ends in the
    recovery decision, and the store keeps the request. *)
Lemma store_replaced_before_invocation_witness :
  (agent_router "hello" translator (raises (Exc OtherException "connection refused"))
     (Some "t1") ∅).1 !! "t1" = Some "hello".
Proof.
  exact (proj2 (proj2 (store_replaced_before_invocation "hello" translator
    (raises (Exc OtherException "connection refused")) "t1" ∅ ltac:(discriminate)))).
Defined.

(** C10, as stated, fails for the empty thread id: the call carries a
    thread id and the store is left without an entry for it. *)
Lemma empty_thread_id_leaves_store :
  agent_router "hello" translator (raises (Exc OtherException "connection refused"))
    (Some EmptyString) ∅
  = (∅, Returned (PyBool false, 0%Z,
                  PyStr "Error in agent routing: connection refused", PyList [])).
Proof. reflexivity. Qed.

(** C2, at a concrete input: two calls on thread [t1], from an empty
    store. *)
Lemma accumulated_text_in_call_order_witness :
  route_all two_calls (Some "t1") ∅ !! "t1"
  = Some ("hello" +:+ nl +:+ nl +:+ "please translate").
Proof.
  rewrite (proj2 (proj1 accumulated_text_in_call_order "t1" ltac:(discriminate))
             two_calls ∅ ltac:(discriminate)).
  reflexivity.
Defined.

(** C2, as stated, fails for the empty thread id: two calls share the
    thread id [""] and nothing is stored for it, neither after the first
    call nor after the second. *)
Lemma empty_thread_id_accumulates_nothing :
  (agent_router "hello" translator (answers reply_sure) (Some EmptyString) ∅).1
    !! EmptyString = None /\
  route_all two_calls (Some EmptyString) ∅ !! EmptyString = None.
Proof. split; reflexivity. Qed.

End a2a_proofs.

(** * Properties of the client *)
Module nostr_client_proofs.
Import nostr_client examples.

(** ** The reference implementation keeps the pynostr contract *)

Lemma read_write_chars (v rest : string) :
  pynostr_reference.read_chars (pynostr_reference.write_chars v +:+ rest) = Some (v, rest).
Proof.
  induction v as [|c v IH]; [done|].
  cbn [pynostr_reference.write_chars]. rewrite !append_cons.
  cbn [pynostr_reference.read_chars]. by rewrite IH.
Qed.

Lemma read_write_attr (o : option string) (rest : string) :
  pynostr_reference.read_attr (pynostr_reference.write_attr o +:+ rest) = Some (o, rest).
Proof.
  destruct o as [v|]; [|done].
  cbn [pynostr_reference.write_attr]. rewrite append_cons.
  cbn [pynostr_reference.read_attr]. by rewrite read_write_chars.
Qed.

Lemma read_write_attrs (l : list (option string)) :
  pynostr_reference.read_attrs (length l) (pynostr_reference.write_attrs l) = Some l.
Proof.
  induction l as [|o l IH]; [done|].
  cbn [length pynostr_reference.write_attrs pynostr_reference.read_attrs].
  rewrite read_write_attr. cbn. by rewrite IH.
Qed.

(** ** The copy made by [metadata_to_dict] and [set_metadata] *)

Lemma dict_lookup_app (key : string) (d1 d2 : list (string * string)) :
  pynostr_reference.dict_lookup key (d1 ++ d2)
  = match pynostr_reference.dict_lookup key d1 with
    | Some v => Some v
    | None => pynostr_reference.dict_lookup key d2
    end.
Proof.
  induction d1 as [|[k v] d1 IH]; [done|]. cbn [app pynostr_reference.dict_lookup].
  by destruct (String.eqb k key).
Qed.

Lemma dict_lookup_entry (key k : string) (attr : option string) :
  pynostr_reference.dict_lookup key (pynostr_reference.entry k attr)
  = if String.eqb k key then kept attr else None.
Proof.
  unfold pynostr_reference.entry, kept.
  destruct attr as [v|]; [|by destruct (String.eqb k key)].
  destruct (py_bool (PyStr v)); cbn [pynostr_reference.dict_lookup];
    by destruct (String.eqb k key).
Qed.

Lemma assign_key_kept (o : option string) :
  match kept o with
  | Some v => Some v
  | None => None
  end = kept o.
Proof. by destruct (kept o). Qed.

(** A fresh [Metadata()] that takes the dict of [previous] ends up with
    the attributes of [previous] that are truthy. *)
Lemma set_metadata_to_dict_kept (previous : Metadata) :
  profile (pynostr_reference.set_metadata Metadata_new
             (pynostr_reference.metadata_to_dict previous))
  = kept <$> profile previous.
Proof.
  unfold pynostr_reference.set_metadata, pynostr_reference.metadata_to_dict,
    pynostr_reference.assign_key, profile.
  cbn [name about nip05 picture banner lud16 lud06 username display_name website
       Metadata_new fmap list_fmap].
  rewrite !dict_lookup_app, !dict_lookup_entry. cbn [String.eqb Ascii.eqb Bool.eqb andb].
  by rewrite !assign_key_kept.
Qed.

Lemma kept_idemp (o : option string) : kept (kept o) = kept o.
Proof. destruct o as [v|]; [|done]. cbn. by destruct (negb _) eqn:Hv; cbn; rewrite ?Hv. Qed.

Lemma profile_length (m : Metadata) : length (profile m) = 10.
Proof. reflexivity. Qed.

#[global, refine] Instance reference_pynostr : Pynostr :=
  {| metadata_dict := list (string * string);
     metadata_to_dict := pynostr_reference.metadata_to_dict;
     set_metadata := pynostr_reference.set_metadata;
     update := pynostr_reference.update;
     to_event := pynostr_reference.to_event;
     from_event := pynostr_reference.from_event |}.
Proof.
  - apply set_metadata_to_dict_kept.
  - by intros [].
  - intros m1 m2 Hp. unfold pynostr_reference.update. cbn [content]. by rewrite Hp.
  - done.
  - intros m pk. unfold pynostr_reference.from_event, pynostr_reference.to_event,
      pynostr_reference.update, sign.
    cbn [event_content event_created_at content created_at mbind option_bind].
    change 10 with (length (kept <$> profile m)). rewrite read_write_attrs.
    by destruct m.
Defined.

Section Client.
Context `{Pynostr}.

Lemma get_own_metadata (self : NostrClient) (relay : list Event) :
  get_metadata_for_pubkey self (Some (public_key self)) relay
  = from_event <$> get_event (mkFilters [SET_METADATA] (Some [public_key self]) 1) relay.
Proof.
  unfold get_metadata_for_pubkey.
  destruct (py_bool (PyStr (public_key self))); by destruct (get_event _ relay).
Qed.

(** The event a call publishes is the one the next call fetches. *)
Lemma get_own_metadata_sent (self : NostrClient) (m : Metadata) (relay : list Event) :
  get_metadata_for_pubkey self (Some (public_key self))
    (send_event (public_key self) (to_event m) relay)
  = Some (from_event (sign (public_key self) (to_event m))).
Proof.
  rewrite get_own_metadata. unfold send_event, get_event. cbn [List.find].
  unfold passes at 1. cbn [kind sign pubkey kinds authors].
  rewrite to_event_kind.
  rewrite bool_decide_eq_true_2 by set_solver.
  by rewrite bool_decide_eq_true_2 by set_solver.
Qed.

Lemma assign_if_idemp (arg current : option string) :
  assign_if arg (assign_if arg current) = assign_if arg current.
Proof. destruct arg as [v|]; [|done]. cbn. by destruct (negb _). Qed.

Lemma zip_assign_if_idemp (args l : list (option string)) :
  zip_with assign_if args (zip_with assign_if args l) = zip_with assign_if args l.
Proof.
  revert l. induction args as [|arg args IH]; intros [|x l]; cbn; [done..|].
  by rewrite assign_if_idemp, IH.
Qed.

(** An assignment over an attribute that was carried over leaves nothing
    that a second copy would drop. *)
Lemma kept_assign_if (arg x : option string) :
  kept (assign_if arg (kept x)) = assign_if arg (kept x).
Proof.
  destruct arg as [v|]; cbn [assign_if]; [|apply kept_idemp].
  destruct (py_bool (PyStr v)) eqn:Hv; [|apply kept_idemp].
  unfold kept. by rewrite Hv.
Qed.

Lemma kept_zip_assign_if (args l : list (option string)) :
  kept <$> zip_with assign_if args (kept <$> l) = zip_with assign_if args (kept <$> l).
Proof.
  revert l. induction args as [|arg args IH]; intros [|x l]; [done..|].
  cbn [fmap list_fmap zip_with]. rewrite kept_assign_if. f_equal. apply IH.
Qed.

Lemma build_metadata_previous (self : NostrClient) (a : profile_args) (now : Z)
    (relay : list Event) :
  (build_metadata self a now relay).1
  = get_metadata_for_pubkey self (Some (public_key self)) relay.
Proof. reflexivity. Qed.

(** The content that is built depends on the relay and the arguments, not
    on the time of the call. *)
Lemma build_metadata_content (self : NostrClient) (a : profile_args) (now1 now2 : Z)
    (relay : list Event) :
  content (build_metadata self a now1 relay).2
  = content (build_metadata self a now2 relay).2.
Proof.
  unfold build_metadata. cbn [snd]. apply update_content. reflexivity.
Qed.

Lemma update_metadata_cases (self : NostrClient) (a : profile_args) (now : Z)
    (relay : list Event) :
  let previous := get_metadata_for_pubkey self (Some (public_key self)) relay in
  let metadata := (build_metadata self a now relay).2 in
  (content <$> previous = Some (content metadata) /\
   update_metadata self a now relay = relay) \/
  (content <$> previous <> Some (content metadata) /\
   update_metadata self a now relay
   = send_event (public_key self) (to_event metadata) relay).
Proof.
  cbv zeta. unfold update_metadata.
  destruct (build_metadata self a now relay) as [p m] eqn:Hb. cbn [snd].
  assert (Hp : p = get_metadata_for_pubkey self (Some (public_key self)) relay).
  { change (p = (build_metadata self a now relay).1). by rewrite Hb. }
  rewrite <- Hp. unfold unchanged.
  destruct p as [prev|]; cbn [fmap option_fmap option_map].
  - case_bool_decide as Hc; [left | right]; split; congruence.
  - right. done.
Qed.

Lemma build_metadata_updated (self : NostrClient) (a : profile_args) (now : Z)
    (relay : list Event) :
  exists m,
    (build_metadata self a now relay).2 = update m /\
    profile m
    = zip_with assign_if (args_list a)
        (kept <$> stored_profile
                    (get_metadata_for_pubkey self (Some (public_key self)) relay)).
Proof.
  unfold build_metadata. cbn [snd]. eexists. split; [reflexivity|].
  destruct (get_metadata_for_pubkey _ _ _) as [previous|]; cbn [stored_profile].
  - rewrite <- (set_metadata_to_dict previous). reflexivity.
  - reflexivity.
Qed.

(** A second call with the same arguments finds the content it builds
    already stored, whether the first call published or not. *)
Lemma update_metadata_again (self : NostrClient) (a : profile_args) (now1 now2 : Z)
    (relay : list Event) :
  update_metadata self a now2 (update_metadata self a now1 relay)
  = update_metadata self a now1 relay.
Proof.
  destruct (update_metadata_cases self a now1 relay) as [[Hsame ->]|[_ ->]].
  - destruct (update_metadata_cases self a now2 relay) as [[_ ->]|[Hdiff _]]; [done|].
    by rewrite (build_metadata_content self a now2 now1) in Hdiff.
  - set (pk := public_key self).
    destruct (build_metadata_updated self a now1 relay) as (m1 & Hm1 & Hp1).
    rewrite Hm1.
    set (once := send_event pk (to_event (update m1)) relay).
    destruct (update_metadata_cases self a now2 once) as [[_ ->]|[Hdiff _]]; [done|].
    destruct Hdiff. unfold once at 1, pk. rewrite get_own_metadata_sent.
    cbn [fmap option_fmap option_map]. f_equal.
    destruct (from_to_event m1 (public_key self)) as [Hprofile ->].
    destruct (build_metadata_updated self a now2 once) as (m2 & -> & Hp2).
    apply update_content. rewrite Hp2. unfold once, pk.
    rewrite get_own_metadata_sent. cbn [stored_profile].
    by rewrite Hprofile, Hp1, !kept_zip_assign_if, zip_assign_if_idemp.
Qed.


End Client.





End nostr_client_proofs.

(** * Further properties of the router *)
Module a2a_more_proofs.
Import a2a examples more_examples conversation a2a_proofs.

(** ** The conversation store *)

Lemma check_history_store (user_message : string) (thread_id : option string)
    (CHAT_HISTORY : gmap string string) :
  (check_history user_message thread_id CHAT_HISTORY).2
  = match thread_key thread_id with
    | Some t => <[t := combined CHAT_HISTORY t user_message]> CHAT_HISTORY
    | None => CHAT_HISTORY
    end.
Proof. unfold check_history, combined. by destruct (thread_key thread_id). Qed.

Lemma thread_key_some (thread_id : option string) (t : string) :
  thread_key thread_id = Some t -> thread_id = Some t /\ t <> EmptyString.
Proof.
  destruct thread_id as [t'|]; [|done]. unfold thread_key, py_bool.
  destruct (String.eqb_spec t' ""); [done|]. by intros [= <-].
Qed.

Section Router.
Context `{JSONDecoder}.

Lemma agent_router_store_eq (user_message : string) (agent_card : AgentCard)
    (llm_callable : llm) (thread_id : option string) (CHAT_HISTORY : gmap string string) :
  (agent_router user_message agent_card llm_callable thread_id CHAT_HISTORY).1
  = match thread_key thread_id with
    | Some t => <[t := combined CHAT_HISTORY t user_message]> CHAT_HISTORY
    | None => CHAT_HISTORY
    end.
Proof. by rewrite agent_router_eq, <- check_history_store. Qed.

(** X1: a call writes to the entry of its own thread and to nothing
    else: the entry of every other thread is what it was, and a call
    without a thread id, or with the empty one, leaves the whole store as
    it was, whatever the call ends in. *)
Theorem other_threads_untouched (user_message : string) (agent_card : AgentCard)
    (llm_callable : llm) (thread_id : option string) (CHAT_HISTORY : gmap string string) :
  let store :=
    (agent_router user_message agent_card llm_callable thread_id CHAT_HISTORY).1 in
  (forall k, thread_id <> Some k -> store !! k = CHAT_HISTORY !! k) /\
  (thread_id = None \/ thread_id = Some EmptyString -> store = CHAT_HISTORY).
Proof.
  cbv zeta. rewrite agent_router_store_eq. split.
  - intros k Hk. destruct (thread_key thread_id) as [t|] eqn:Ht; [|done].
    apply thread_key_some in Ht as [-> _]. apply lookup_insert_ne. congruence.
  - by intros [-> | ->].
Qed.

Lemma agent_router_grows (user_message : string) (agent_card : AgentCard)
    (llm_callable : llm) (thread_id : option string) (CHAT_HISTORY : gmap string string)
    (k old : string) :
  CHAT_HISTORY !! k = Some old ->
  exists suffix,
    (agent_router user_message agent_card llm_callable thread_id CHAT_HISTORY).1 !! k
    = Some (old +:+ suffix).
Proof.
  intros Hold. rewrite agent_router_store_eq.
  destruct (thread_key thread_id) as [t|].
  - destruct (decide (t = k)) as [->|Hne].
    + exists (nl +:+ nl +:+ user_message).
      rewrite lookup_insert_eq. unfold combined. by rewrite Hold.
    + exists EmptyString. rewrite lookup_insert_ne by done.
      by rewrite append_empty_r.
  - exists EmptyString. by rewrite append_empty_r.
Qed.

(** X2: the store never drops or shortens an entry. Over any run of
    calls, on whatever threads and however each call ends, a text that
    was stored for a thread is still the beginning of the text stored for
    that thread afterwards. *)
Theorem stored_text_only_grows (calls : list (string * AgentCard * llm * option string))
    (CHAT_HISTORY : gmap string string) (k old : string) :
  CHAT_HISTORY !! k = Some old ->
  exists suffix, route_each calls CHAT_HISTORY !! k = Some (old +:+ suffix).
Proof.
  revert CHAT_HISTORY old.
  induction calls as [|[[[r card] f] tid] rest IH]; intros CHAT_HISTORY old Hold.
  - exists EmptyString. by rewrite append_empty_r.
  - cbn [route_each].
    destruct (agent_router_grows r card f tid CHAT_HISTORY k old Hold) as [s1 Hs1].
    destruct (IH _ _ Hs1) as [s2 Hs2].
    exists (s1 +:+ s2). by rewrite Hs2, append_assoc.
Qed.

End Router.

(** ** Cutting the reply down to the object *)

Lemma length_append (a b : string) :
  String.length (a +:+ b) = String.length a + String.length b.
Proof. induction a as [|x a IH]; [done|]. rewrite append_cons. cbn. by rewrite IH. Qed.

Lemma has_char_append (c : ascii) (a b : string) :
  has_char c (a +:+ b) = has_char c a || has_char c b.
Proof.
  induction a as [|x a IH]; [done|]. rewrite append_cons. cbn [has_char].
  by rewrite IH, orb_assoc.
Qed.

Lemma substring_skip (a s : string) (n : nat) :
  substring (String.length a) n (a +:+ s) = substring 0 n s.
Proof. induction a as [|x a IH]; [done|]. rewrite append_cons. apply IH. Qed.

Lemma substring_take (b c : string) : substring 0 (String.length b) (b +:+ c) = b.
Proof.
  induction b as [|x b IH]; [by destruct c|]. rewrite append_cons. cbn. by rewrite IH.
Qed.

Lemma find_from_at (c : ascii) (pre rest : string) (i : Z) :
  has_char c pre = false ->
  find_from c (pre +:+ String c rest) i = (i + Z.of_nat (String.length pre))%Z.
Proof.
  revert i. induction pre as [|x pre IH]; intros i Hc.
  - change (EmptyString +:+ String c rest) with (String c rest).
    cbn [find_from String.length]. rewrite Ascii.eqb_refl. lia.
  - cbn [has_char] in Hc. apply orb_false_iff in Hc as [Hx Hpre].
    rewrite append_cons. cbn [find_from]. rewrite Hx, IH by done.
    cbn [String.length]. lia.
Qed.

Lemma rfind_from_at (c : ascii) (x post : string) (i last : Z) :
  has_char c post = false ->
  rfind_from c (x +:+ String c post) i last = (i + Z.of_nat (String.length x))%Z.
Proof.
  intros Hc. revert i last. induction x as [|a x IH]; intros i last.
  - change (EmptyString +:+ String c post) with (String c post).
    cbn [rfind_from String.length]. rewrite Ascii.eqb_refl, rfind_from_absent by done. lia.
  - rewrite append_cons. cbn [rfind_from]. rewrite IH. cbn [String.length]. lia.
Qed.

(** The slice of [a ++ b ++ c] from the end of [a] to the end of [b]. *)
Lemma str_slice_middle (a b c : string) :
  str_slice (a +:+ b +:+ c) (Z.of_nat (String.length a))
    (Z.of_nat (String.length a + String.length b))
  = b.
Proof.
  unfold str_slice, slice_index. rewrite !length_append.
  destruct (Z.ltb_spec (Z.of_nat (String.length a)) 0); [lia|].
  destruct (Z.ltb_spec (Z.of_nat (String.length a + String.length b)) 0); [lia|].
  rewrite !Z.min_l by lia. rewrite Nat2Z.id.
  replace (Z.to_nat _) with (String.length b) by lia.
  by rewrite substring_skip, substring_take.
Qed.

Lemma first_to_last_brace_wrapped (pre body post : string) :
  has_char "{"%char pre = false -> has_char "}"%char post = false ->
  first_to_last_brace (pre +:+ "{" +:+ body +:+ "}" +:+ post)
  = "{" +:+ body +:+ "}".
Proof.
  intros Hpre Hpost. unfold first_to_last_brace, str_find, str_rfind.
  change (pre +:+ "{" +:+ body +:+ "}" +:+ post)
    with (pre +:+ String "{"%char (body +:+ "}" +:+ post)) at 2.
  rewrite find_from_at by done.
  replace (pre +:+ "{" +:+ body +:+ "}" +:+ post)
    with ((pre +:+ "{" +:+ body) +:+ String "}"%char post) at 2
    by (by rewrite !append_assoc).
  rewrite rfind_from_at by done.
  replace (pre +:+ "{" +:+ body +:+ "}" +:+ post)
    with (pre +:+ ("{" +:+ body +:+ "}") +:+ post) by (by rewrite !append_assoc).
  rewrite <- (str_slice_middle pre ("{" +:+ body +:+ "}") post) at 2.
  f_equal; rewrite !length_append; cbn [String.length]; lia.
Qed.

Lemma first_to_last_brace_object (body : string) :
  first_to_last_brace ("{" +:+ body +:+ "}") = "{" +:+ body +:+ "}".
Proof.
  rewrite <- (first_to_last_brace_wrapped EmptyString body EmptyString) at 2 by done.
  change (EmptyString +:+ "{" +:+ body +:+ "}" +:+ EmptyString)
    with ("{" +:+ body +:+ ("}" +:+ EmptyString)).
  by rewrite append_empty_r.
Qed.

Section Extraction.
Context `{JSONDecoder}.

(** X3: prose around the object does not matter. When the reply is an
    object in braces with text before it that has no opening brace and
    text after it that has no closing brace, the router cuts the reply
    down to the object, and the call comes out exactly as for the bare
    object. *)
Theorem prose_around_object_is_cut (agent_card : AgentCard) (pre body post : string) :
  has_char "{"%char pre = false -> has_char "}"%char post = false ->
  first_to_last_brace (pre +:+ "{" +:+ body +:+ "}" +:+ post) = "{" +:+ body +:+ "}" /\
  outer_handler
    (route_response agent_card (LLMReturn (PyStr (pre +:+ "{" +:+ body +:+ "}" +:+ post))))
  = outer_handler (route_response agent_card (LLMReturn (PyStr ("{" +:+ body +:+ "}")))).
Proof.
  intros Hpre Hpost. split; [by apply first_to_last_brace_wrapped|].
  cbn [route_response str_receiver mbind res_bind].
  by rewrite first_to_last_brace_wrapped, first_to_last_brace_object.
Qed.

End Extraction.

(** X3, at a concrete input: a sentence before the object and one after
    it. *)
Lemma prose_around_object_is_cut_witness :
  first_to_last_brace ("Here you go: " +:+ "{" +:+ "}" +:+ "}" +:+ " Anything else?")
  = "{" +:+ "}" +:+ "}".
Proof.
  exact (proj1 (prose_around_object_is_cut translator "Here you go: " "}"
                  " Anything else?" eq_refl eq_refl)).
Defined.

(** ** What reaches the decoder *)

Lemma has_char_first (c : ascii) (s : string) :
  has_char c s = true ->
  exists pre rest, s = pre +:+ String c rest /\ has_char c pre = false.
Proof.
  induction s as [|a s IH]; [done|]. cbn [has_char].
  destruct (Ascii.eqb_spec a c) as [->|Hne]; cbn [orb].
  - intros _. by exists EmptyString, s.
  - intros (pre & rest & -> & Hpre)%IH. exists (String a pre), rest.
    split; [done|]. cbn [has_char]. rewrite Hpre.
    by destruct (Ascii.eqb_spec a c).
Qed.

Lemma has_char_last (c : ascii) (s : string) :
  has_char c s = true ->
  exists x post, s = x +:+ String c post /\ has_char c post = false.
Proof.
  induction s as [|a s IH]; [done|]. cbn [has_char].
  destruct (has_char c s) eqn:Hs.
  - intros _. destruct (IH eq_refl) as (x & post & -> & Hpost).
    by exists (String a x), post.
  - rewrite orb_false_r. intros ->%Ascii.eqb_eq. by exists EmptyString, s.
Qed.

Lemma append_overlap (pre rest x post : string) (a b : ascii) :
  pre +:+ String a rest = x +:+ String b post ->
  String.length pre <= String.length x -> a <> b ->
  exists mid, x = pre +:+ String a mid.
Proof.
  revert x. induction pre as [|p pre IH]; intros x Heq Hlen Hab.
  - destruct x as [|h x]; [by injection Heq|].
    injection Heq as -> _. by exists x.
  - destruct x as [|h x]; [cbn in Hlen; lia|].
    rewrite !append_cons in Heq. injection Heq as -> Heq.
    destruct (IH x Heq) as [mid ->]; [cbn in Hlen; lia | done |]. by exists mid.
Qed.

Lemma rev_app_append (a b c : string) :
  String.rev_app (a +:+ b) c = String.rev_app b (String.rev_app a c).
Proof.
  revert c. induction a as [|x a IH]; intros c; [done|].
  rewrite append_cons. cbn [String.rev_app]. apply IH.
Qed.

Lemma rev_app_rev_app (a b c : string) :
  String.rev_app (String.rev_app a b) c = String.rev_app b (a +:+ c).
Proof.
  revert b c. induction a as [|x a IH]; intros b c; [done|].
  cbn [String.rev_app]. rewrite IH. cbn [String.rev_app]. by rewrite append_cons.
Qed.

Lemma rev_rev (a : string) : String.rev (String.rev a) = a.
Proof.
  unfold String.rev. rewrite rev_app_rev_app. cbn [String.rev_app].
  apply append_empty_r.
Qed.

Lemma rev_snoc (a : string) (c : ascii) :
  String.rev (a +:+ String c EmptyString) = String c (String.rev a).
Proof. unfold String.rev. by rewrite rev_app_append. Qed.

(** [strip] leaves a text alone when neither its first nor its last
    character is whitespace. *)
Lemma str_strip_tight (a b : ascii) (mid : string) :
  is_space a = false -> is_space b = false ->
  str_strip (String a (mid +:+ String b EmptyString)) = String a (mid +:+ String b EmptyString).
Proof.
  intros Ha Hb. unfold str_strip. cbn [str_lstrip]. rewrite Ha.
  rewrite <- append_cons, rev_snoc. cbn [str_lstrip]. rewrite Hb.
  by rewrite <- rev_snoc, rev_rev.
Qed.

Lemma first_to_last_brace_shape (s : string) :
  first_to_last_brace s = EmptyString \/
  first_to_last_brace s = "}" \/
  exists mid, first_to_last_brace s = "{" +:+ mid +:+ "}".
Proof.
  unfold first_to_last_brace, str_find, str_rfind, str_slice, slice_index.
  destruct (has_char "{"%char s) eqn:Ho; destruct (has_char "}"%char s) eqn:Hc.
  - destruct (has_char_first _ _ Ho) as (pre & rest & Hs1 & Hpre).
    destruct (has_char_last _ _ Hc) as (x & post & Hs2 & Hpost).
    assert (Hf : find_from "{"%char s 0 = (0 + Z.of_nat (String.length pre))%Z)
      by (rewrite Hs1; by apply find_from_at).
    assert (Hr : rfind_from "}"%char s 0 (-1) = (0 + Z.of_nat (String.length x))%Z)
      by (rewrite Hs2; by apply rfind_from_at).
    rewrite Hf, Hr.
    assert (Hlen : String.length s = String.length x + S (String.length post))
      by (by rewrite Hs2, length_append).
    assert (Hlen' : String.length s = String.length pre + S (String.length rest))
      by (by rewrite Hs1, length_append).
    destruct (Z.ltb_spec (0 + Z.of_nat (String.length pre)) 0); [lia|].
    destruct (Z.ltb_spec (0 + Z.of_nat (String.length x) + 1) 0); [lia|].
    rewrite !Z.min_l by lia.
    destruct (decide (String.length pre <= String.length x)) as [Hle|Hgt].
    + destruct (append_overlap pre rest x post "{"%char "}"%char) as [mid ->];
        [congruence | done | done |].
      right. right. exists mid.
      replace (Z.to_nat (0 + Z.of_nat (String.length pre))) with (String.length pre) by lia.
      replace (Z.to_nat _)
        with (String.length ("{" +:+ mid +:+ "}"))
        by (rewrite !length_append; cbn [String.length]; lia).
      rewrite Hs2.
      replace ((pre +:+ String "{"%char mid) +:+ String "}"%char post)
        with (pre +:+ ("{" +:+ mid +:+ "}") +:+ post).
      * by rewrite substring_skip, substring_take.
      * change (String "{"%char mid) with ("{" +:+ mid).
        change (String "}"%char post) with ("}" +:+ post).
        by rewrite !append_assoc.
    + left. replace (Z.to_nat (_ - _)) with 0 by lia. apply substring_none.
  - left. rewrite (rfind_from_absent _ _ _ _ Hc).
    change (-1 + 1)%Z with 0%Z. cbn [Z.ltb Z.compare].
    destruct (Z.ltb_spec (find_from "{"%char s 0) 0).
    + replace (Z.to_nat (_ - _)) with 0 by lia. apply substring_none.
    + replace (Z.to_nat (_ - _)) with 0 by lia. apply substring_none.
  - rewrite (find_from_absent _ _ _ Ho).
    destruct (has_char_last _ _ Hc) as (x & post & Hs2 & Hpost).
    assert (Hr : rfind_from "}"%char s 0 (-1) = (0 + Z.of_nat (String.length x))%Z)
      by (rewrite Hs2; by apply rfind_from_at).
    rewrite Hr.
    assert (Hlen : String.length s = String.length x + S (String.length post))
      by (by rewrite Hs2, length_append).
    cbn [Z.ltb Z.compare].
    destruct (Z.ltb_spec (0 + Z.of_nat (String.length x) + 1) 0); [lia|].
    rewrite Z.min_l by lia. rewrite Z.max_r by lia.
    destruct post as [|p post].
    + right. left.
      replace (Z.to_nat (-1 + Z.of_nat (String.length s))) with (String.length x) by (cbn in Hlen; lia).
      replace (Z.to_nat (_ - _)) with 1 by (cbn in Hlen; lia).
      rewrite Hs2. by rewrite substring_skip.
    + left. replace (Z.to_nat (_ - _)) with 0 by (cbn in Hlen; lia). apply substring_none.
  - left. by apply first_to_last_brace_plain.
Qed.

(** X4: whatever the reply is, the text handed to the decoder is empty, a
    lone closing brace, or a text that starts with an opening brace and
    ends with a closing one, and the [strip] applied to it changes
    nothing. A reply that is a JSON array or a bare literal therefore
    never reaches the decoder in one piece. *)
Theorem decoder_input_shape (response : string) :
  (first_to_last_brace response = EmptyString \/
   first_to_last_brace response = "}" \/
   exists mid, first_to_last_brace response = "{" +:+ mid +:+ "}") /\
  str_strip (first_to_last_brace response) = first_to_last_brace response.
Proof.
  split; [apply first_to_last_brace_shape|].
  destruct (first_to_last_brace_shape response) as [-> | [-> | [mid ->]]]; try done.
  change ("{" +:+ mid +:+ "}") with (String "{"%char (mid +:+ String "}"%char EmptyString)).
  by apply str_strip_tight.
Qed.

(** ** Pricing *)

(** The price a name fetches depends on the name through its lowered
    form only. *)
Lemma matched_price_lower (agent_card : AgentCard) (n n' : string) :
  str_lower n = str_lower n' -> matched_price agent_card n = matched_price agent_card n'.
Proof. intros Hl. unfold matched_price, matches_name. by rewrite Hl. Qed.

Lemma skillCost_lower (agent_card : AgentCard) (names names' : list string) :
  map str_lower names = map str_lower names' ->
  skillCost agent_card names = skillCost agent_card names'.
Proof.
  revert names'. induction names as [|n names IH]; intros [|n' names'] Hl; try done.
  injection Hl as Hn Hl. unfold skillCost in *. cbn [map foldr].
  by rewrite (matched_price_lower _ _ _ Hn), (IH _ Hl).
Qed.

Lemma skillCost_perm (agent_card : AgentCard) (names names' : list string) :
  names ≡ₚ names' -> skillCost agent_card names = skillCost agent_card names'.
Proof.
  unfold skillCost. induction 1 as [|n l l' _ IH|n n' l|l l' l'' _ IH1 _ IH2];
    cbn [map foldr]; lia.
Qed.

Lemma compute_cost_skillCost (agent_card : AgentCard) (can_handle : pyval)
    (names names' : list string) :
  skillCost agent_card names = skillCost agent_card names' ->
  compute_cost agent_card can_handle (PyList (map PyStr names))
  = compute_cost agent_card can_handle (PyList (map PyStr names')).
Proof.
  intros Hs. destruct (py_bool can_handle) eqn:Hc.
  - rewrite !compute_cost_names by done. unfold priced. by rewrite Hs.
  - by rewrite !compute_cost_declined.
Qed.

(** X5: matching is blind to case on the side of the completion too.
    Two lists of skill names that are equal once lowered are priced the
    same by every card. *)
Theorem cost_ignores_case (agent_card : AgentCard) (can_handle : pyval)
    (names names' : list string) :
  map str_lower names = map str_lower names' ->
  compute_cost agent_card can_handle (PyList (map PyStr names))
  = compute_cost agent_card can_handle (PyList (map PyStr names')).
Proof.
  intros Hl. by apply compute_cost_skillCost, skillCost_lower.
Qed.

(** X8: the order in which the completion lists the skills does not
    change the price. *)
Theorem cost_ignores_order (agent_card : AgentCard) (can_handle : pyval)
    (names names' : list string) :
  names ≡ₚ names' ->
  compute_cost agent_card can_handle (PyList (map PyStr names))
  = compute_cost agent_card can_handle (PyList (map PyStr names')).
Proof.
  intros Hp. by apply compute_cost_skillCost, skillCost_perm.
Qed.

Lemma find_first (P : Skill -> bool) (l1 l2 : list Skill) (skill : Skill) :
  (forall s, s ∈ l1 -> P s = false) -> P skill = true ->
  List.find P (l1 ++ skill :: l2) = Some skill.
Proof.
  intros Hl1 Hs. induction l1 as [|a l1 IH]; cbn [app List.find].
  - by rewrite Hs.
  - rewrite (Hl1 a) by set_solver. apply IH. intros s Hin. apply Hl1. set_solver.
Qed.


Lemma compute_cost_nonneg (agent_card : AgentCard) (can_handle skills_used : pyval)
    (c : Z) :
  (forall base, satoshis agent_card = Some base -> (0 <= base)%Z) ->
  compute_cost agent_card can_handle skills_used = Ok c -> (0 <= c)%Z.
Proof.
  intros Hbase. unfold compute_cost.
  destruct (py_bool can_handle); [|intros [= <-]; lia].
  assert (Hadd : forall k : Z, (0 <= k)%Z ->
            (0 <= match satoshis agent_card with
                  | Some base => k + base
                  | None => k
                  end)%Z).
  { intros k Hk. destruct (satoshis agent_card) as [base|]; [|done].
    specialize (Hbase base eq_refl). lia. }
  destruct (py_bool skills_used).
  - destruct (py_iter skills_used) as [names|e]; cbn [mbind res_bind]; [|done].
    destruct (sum_skills _ names 0%Z) as [sc|e]; cbn [mbind res_bind]; [|done].
    intros [= <-]. apply Hadd. destruct (Z.ltb_spec 0 sc); lia.
  - cbn [mbind res_bind]. intros [= <-]. by apply Hadd.
Qed.

Section Pricing.
Context `{JSONDecoder}.

(** Every decision that comes back is one of the two recovery tuples or
    the tuple priced by lines 174-189. *)
Lemma returned_decision (agent_card : AgentCard) (reply : llm_outcome)
    (d : RouterDecision) :
  outer_handler (route_response agent_card reply) = Returned d ->
  (exists prefix e, d = failure prefix e) \/
  compute_cost agent_card (canHandle d) (skillsUsed d) = Ok (costUnits d).
Proof.
  unfold outer_handler.
  destruct (route_response agent_card reply) as [d'|e] eqn:Hr.
  - intros [= <-]. destruct reply as [v|e]; [|done].
    cbn [route_response] in Hr. destruct v; try done.
    cbn [str_receiver mbind res_bind] in Hr. unfold inner_handler in Hr.
    destruct (parse_response _ _) as [d''|e] eqn:Hp.
    + injection Hr as <-. right. exact (parse_response_ok _ _ _ Hp).
    + destruct (isinstance_ValueError e); [|done]. injection Hr as <-. left. eauto.
  - destruct (isinstance_Exception e); [|done]. intros [= <-]. left. eauto.
Qed.

(** X6: with a base price that is unset or not negative, no decision ever
    carries a negative cost, even when skills of the card carry negative
    prices: a sum of skill prices that is not strictly positive is left
    out. *)
Theorem cost_never_negative (user_message : string) (agent_card : AgentCard)
    (llm_callable : llm) (thread_id : option string)
    (CHAT_HISTORY : gmap string string) (d : RouterDecision) :
  (forall base, satoshis agent_card = Some base -> (0 <= base)%Z) ->
  (agent_router user_message agent_card llm_callable thread_id CHAT_HISTORY).2
  = Returned d ->
  (0 <= costUnits d)%Z.
Proof.
  intros Hbase. rewrite agent_router_eq. cbn [snd].
  intros [(prefix & e & ->)|Hc]%returned_decision; [done|].
  by eapply compute_cost_nonneg.
Qed.

End Pricing.

(** X5, at a concrete input: upper case and lower case. *)
Lemma cost_ignores_case_witness :
  compute_cost translator (PyBool true) (PyList (map PyStr ["TRANSLATE"; "Translate"]))
  = compute_cost translator (PyBool true) (PyList (map PyStr ["translate"; "translate"])).
Proof.
  exact (cost_ignores_case translator (PyBool true) ["TRANSLATE"; "Translate"]
           ["translate"; "translate"] eq_refl).
Defined.

(** X8, at a concrete input. *)
Lemma cost_ignores_order_witness :
  compute_cost market (PyBool true) (PyList (map PyStr ["quote"; "discount"]))
  = compute_cost market (PyBool true) (PyList (map PyStr ["discount"; "quote"])).
Proof.
  exact (cost_ignores_order market (PyBool true) ["quote"; "discount"]
           ["discount"; "quote"] (perm_swap _ _ _)).
Defined.


(** X6, at a concrete input: the only skill used has a negative price,
    and the decision costs the base price. *)
Lemma cost_never_negative_witness :
  (agent_router "a discount please" market
     (answers (reply "true" (quoted "Ok.") ("[" +:+ quoted "discount" +:+ "]")))
     None ∅).2
  = Returned (PyBool true, 50%Z, PyStr "Ok.", PyList [PyStr "discount"]) /\
  (0 <= 50)%Z.
Proof.
  split; [reflexivity|].
  exact (cost_never_negative "a discount please" market
           (answers (reply "true" (quoted "Ok.") ("[" +:+ quoted "discount" +:+ "]")))
           None ∅ (PyBool true, 50%Z, PyStr "Ok.", PyList [PyStr "discount"])
           ltac:(intros base [= <-]; lia) eq_refl).
Defined.

(** ** The prompt *)

Lemma prompt_skills_line (l : list Skill) (skill : Skill) :
  skill ∈ l ->
  exists a b,
    prompt_skills l
    = a +:+ (nl +:+ "- " +:+ skill_name skill +:+ ": " +:+ skill_description skill) +:+ b.
Proof.
  induction l as [|x l IH]; [by intros ?%elem_of_nil|].
  intros [->|Hin]%elem_of_cons; cbn [prompt_skills].
  - exists EmptyString, (prompt_skills l). by rewrite !append_assoc.
  - destruct (IH Hin) as (a & b & ->).
    exists ((nl +:+ "- " +:+ skill_name x +:+ ": " +:+ skill_description x) +:+ a), b.
    by rewrite !append_assoc.
Qed.

(** X9: the prompt shows the completion callable the agent's name, the
    line [- name: description] of every skill of the card, and the request
    text word for word, the request coming after the name and after every
    skill line. *)
Theorem prompt_shows_card_then_request (agent_card : AgentCard) (text : string) :
  precedes_in ("Name: " +:+ name agent_card) text (build_prompt agent_card text) /\
  (forall skill, skill ∈ skills agent_card ->
     precedes_in
       (nl +:+ "- " +:+ skill_name skill +:+ ": " +:+ skill_description skill)
       text (build_prompt agent_card text)).
Proof.
  split.
  - exists ("You are an agent router that determines if an agent can handle a user's request."
            +:+ nl +:+ nl +:+ "Agent Information:" +:+ nl),
      (nl +:+ "Description: " +:+ description agent_card +:+ nl +:+ nl +:+ "Skills:"
       +:+ prompt_skills (skills agent_card)
       +:+ nl +:+ nl +:+ "User Request History: " +:+ nl +:+ nl),
      (nl +:+ nl +:+ prompt_instructions).
    unfold build_prompt, prompt_header. by rewrite !append_assoc.
  - intros skill (a & b & Hl)%prompt_skills_line.
    exists (prompt_header agent_card +:+ a),
      (b +:+ nl +:+ nl +:+ "User Request History: " +:+ nl +:+ nl),
      (nl +:+ nl +:+ prompt_instructions).
    unfold build_prompt. rewrite Hl. by rewrite !append_assoc.
Qed.

Section Structured.
Context `{JSONDecoder}.

Lemma agent_router_v2_eq (user_message : string) (agent_card : AgentCard)
    (llm_callable : llm) (thread_id : option string)
    (CHAT_HISTORY : gmap string string) :
  (agent_router_v2 user_message agent_card llm_callable thread_id CHAT_HISTORY).2
  = match (agent_router user_message agent_card llm_callable thread_id CHAT_HISTORY).2 with
    | Propagated e => Propagated e
    | Returned (can_handle, cost, user_message, skills_used) =>
        match RouterResponse_init can_handle cost user_message skills_used with
        | Ok response => Returned response
        | Raise e => Propagated e
        end
    end.
Proof. unfold agent_router_v2. by destruct (agent_router _ _ _ _ _). Qed.

(** What [agent_router_v2] computes on the router's own failures: a
    callable that raises an [Exception] and a reply that does not decode
    both give a [RouterResponse] with [can_handle] false, a cost of 0,
    the diagnostic as message and no skills. What is not an [Exception]
    goes through to the caller. *)
Lemma agent_router_v2_on_failure (user_message : string) (agent_card : AgentCard)
    (llm_callable : llm) (thread_id : option string)
    (CHAT_HISTORY : gmap string string) :
  let h := check_history user_message thread_id CHAT_HISTORY in
  let reply := llm_callable h.2 (build_prompt agent_card h.1) in
  let result :=
    (agent_router_v2 user_message agent_card llm_callable thread_id CHAT_HISTORY).2 in
  (forall e, reply = LLMRaise e -> isinstance_Exception e = true ->
     result = Returned (mkRouterResponse false 0%Z
                          ("Error in agent routing: " +:+ exc_str e) [])) /\
  (forall e, reply = LLMRaise e -> isinstance_Exception e = false ->
     result = Propagated e) /\
  (forall text msg, reply = LLMReturn (PyStr text) ->
     json_loads (str_strip (first_to_last_brace text)) = DecodeError msg ->
     result = Returned (mkRouterResponse false 0%Z
                          ("Error parsing LLM response: " +:+ msg) [])).
Proof.
  cbv zeta. rewrite agent_router_v2_eq, agent_router_eq. cbv zeta. cbn [snd].
  split_and!.
  - intros e -> He. cbn [route_response outer_handler]. by rewrite He.
  - intros e -> He. cbn [route_response outer_handler]. by rewrite He.
  - intros text msg -> Hdec. cbn [route_response str_receiver mbind res_bind].
    unfold parse_response. by rewrite Hdec.
Qed.

End Structured.

(** X9, at a concrete input. *)
Lemma prompt_shows_card_then_request_witness :
  precedes_in
    (nl +:+ "- " +:+ "translate" +:+ ": " +:+ "Translate a text")
    "translate this" (build_prompt translator "translate this").
Proof.
  refine (proj2 (prompt_shows_card_then_request translator "translate this")
            (mkSkill "translate" "Translate a text" (Some 100%Z)) _).
  apply list_elem_of_here.
Defined.

(** X2, at a concrete input: four calls on two threads and on none. *)
Lemma stored_text_only_grows_witness :
  exists suffix,
    route_each mixed_calls {["t1" := "earlier"]} !! "t1" = Some ("earlier" +:+ suffix).
Proof.
  exact (stored_text_only_grows mixed_calls {["t1" := "earlier"]} "t1" "earlier" eq_refl).
Defined.

End a2a_more_proofs.

(** * The router and its writes to standard output *)
Module a2a_stdout_proofs.
Import a2a a2a_stdout examples stdout_examples.

(** ** The code's test on lowered names is the matching rule *)

Lemma ascii_eqb_nat (c d : ascii) :
  Ascii.eqb c d = (nat_of_ascii c =? nat_of_ascii d)%nat.
Proof.
  destruct (Ascii.eqb_spec c d) as [->|Hne].
  - by rewrite Nat.eqb_refl.
  - symmetry. apply Nat.eqb_neq. intros Heq. apply Hne.
    by rewrite <- (ascii_nat_embedding c), <- (ascii_nat_embedding d), Heq.
Qed.

Lemma nat_of_lower_char (c : ascii) :
  nat_of_ascii (lower_char c)
  = if is_capital c then nat_of_ascii c + 32 else nat_of_ascii c.
Proof.
  unfold lower_char, is_capital.
  destruct ((65 <=? nat_of_ascii c)%nat && (nat_of_ascii c <=? 90)%nat) eqn:Hc; [|done].
  apply andb_true_iff in Hc as [_ Hle%Nat.leb_le].
  apply nat_ascii_embedding. lia.
Qed.

Lemma lower_char_same (c d : ascii) :
  Ascii.eqb (lower_char c) (lower_char d) = same_letter c d.
Proof.
  unfold same_letter. rewrite !ascii_eqb_nat, !nat_of_lower_char.
  unfold is_capital.
  destruct (Nat.leb_spec 65 (nat_of_ascii c)), (Nat.leb_spec (nat_of_ascii c) 90),
    (Nat.leb_spec 65 (nat_of_ascii d)), (Nat.leb_spec (nat_of_ascii d) 90);
    cbn [andb orb];
    repeat match goal with
           | |- context [(?a =? ?b)%nat] => destruct (Nat.eqb_spec a b)
           end; cbn [andb orb]; try reflexivity; lia.
Qed.

Lemma str_lower_same (a b : string) :
  String.eqb (str_lower a) (str_lower b) = same_up_to_case a b.
Proof.
  revert b. induction a as [|c a IH]; intros [|d b]; cbn; try done.
  by rewrite lower_char_same, IH.
Qed.

Lemma matches_name_same (skill : Skill) (n : string) :
  matches_name skill n = same_up_to_case (skill_name skill) n.
Proof.
  unfold matches_name. rewrite <- str_lower_same.
  destruct (String.eqb_spec (str_lower (skill_name skill)) (str_lower n));
    [by rewrite bool_decide_eq_true_2 | by rewrite bool_decide_eq_false_2].
Qed.

Lemma matched_price_of (agent_card : AgentCard) (n : string) :
  default 0%Z (matched_price agent_card n) = price_of agent_card n.
Proof.
  unfold matched_price, price_of.
  induction (skills agent_card) as [|skill rest IH]; [done|].
  cbn [List.find]. rewrite matches_name_same.
  destruct (same_up_to_case (skill_name skill) n
            && bool_decide (is_Some (skill_satoshis skill))); [done | apply IH].
Qed.

Lemma skillCost_price (agent_card : AgentCard) (names : list string) :
  skillCost agent_card names = skills_price agent_card names.
Proof.
  unfold skillCost, skills_price.
  induction names as [|n names IH]; [done|]. cbn [map foldr].
  by rewrite matched_price_of, IH.
Qed.

Section Router.
Context {decoder : JSONDecoder} {stdout : Stdout}.

(** The router, split at its three writes before the [try]. *)
Lemma agent_router_split (user_message : string) (agent_card : AgentCard)
    (llm_callable : llm) (thread_id : option string) (CHAT_HISTORY : gmap string string) :
  a2a_stdout.agent_router user_message agent_card llm_callable thread_id CHAT_HISTORY
  = let h := check_history user_message thread_id CHAT_HISTORY in
    let prompt := build_prompt agent_card h.1 in
    (h.2,
     match announce h.1 agent_card prompt with
     | Raise e => Propagated e
     | Ok _ =>
         a2a_stdout.outer_handler
           (a2a_stdout.route_response agent_card (llm_callable h.2 prompt))
     end).
Proof. unfold a2a_stdout.agent_router. by destruct (check_history _ _ _). Qed.

Lemma writes_split (user_message : string) (agent_card : AgentCard)
    (llm_callable : llm) (thread_id : option string) (CHAT_HISTORY : gmap string string) :
  writes user_message agent_card llm_callable thread_id CHAT_HISTORY
  = let h := check_history user_message thread_id CHAT_HISTORY in
    let prompt := build_prompt agent_card h.1 in
    [request_text h.1; card_text agent_card; prompt_text prompt] ++
    match llm_callable h.2 prompt with
    | LLMRaise e => outer_text e
    | LLMReturn response =>
        match str_receiver response "find" with
        | Raise e => outer_text e
        | Ok s =>
            response_text (first_to_last_brace s) ::
            match a2a.parse_response agent_card (first_to_last_brace s) with
            | Ok d => [decision_text d]
            | Raise e =>
                if isinstance_ValueError e then [parse_error_text e] else outer_text e
            end
        end
    end.
Proof. unfold writes. by destruct (check_history _ _ _). Qed.

Lemma agent_router_v2_split (user_message : string) (agent_card : AgentCard)
    (llm_callable : llm) (thread_id : option string) (CHAT_HISTORY : gmap string string) :
  a2a_stdout.agent_router_v2 user_message agent_card llm_callable thread_id CHAT_HISTORY
  = let r :=
      a2a_stdout.agent_router user_message agent_card llm_callable thread_id CHAT_HISTORY in
    (r.1,
     match r.2 with
     | Propagated e => Propagated e
     | Returned (can_handle, cost, user_message, skills_used) =>
         match RouterResponse_init can_handle cost user_message skills_used with
         | Ok response => Returned response
         | Raise e => Propagated e
         end
     end).
Proof. unfold a2a_stdout.agent_router_v2. by destruct (a2a_stdout.agent_router _ _ _ _ _). Qed.

Lemma Forall_written (l : list (list pyval)) :
  forallb written l = true -> Forall goes_through l.
Proof.
  induction l as [|parts l IH]; cbn [forallb]; [constructor|].
  intros [Hp Hl]%andb_true_iff. constructor; [|by apply IH].
  unfold written in Hp. unfold goes_through. by destruct (py_print parts) as [[]|].
Qed.

(** What the outer handler does with an exception whose text it can
    print. *)
Lemma outer_handler_written (e : exc) :
  Forall goes_through (outer_text e) ->
  a2a_stdout.outer_handler (Raise e) = a2a.outer_handler (Raise e).
Proof.
  unfold outer_text. cbn [a2a_stdout.outer_handler a2a.outer_handler].
  destruct (isinstance_Exception e); [|done].
  intros [Hw _]%Forall_cons. unfold goes_through in Hw. by rewrite Hw.
Qed.

(** When the texts a call writes all go through, the call does what the
    router of [a2a] computes. *)
Lemma agent_router_written (user_message : string) (agent_card : AgentCard)
    (llm_callable : llm) (thread_id : option string) (CHAT_HISTORY : gmap string string) :
  Forall goes_through (writes user_message agent_card llm_callable thread_id CHAT_HISTORY) ->
  a2a_stdout.agent_router user_message agent_card llm_callable thread_id CHAT_HISTORY
  = a2a.agent_router user_message agent_card llm_callable thread_id CHAT_HISTORY.
Proof.
  rewrite writes_split, agent_router_split, a2a_proofs.agent_router_eq. cbv zeta.
  set (h := check_history user_message thread_id CHAT_HISTORY).
  set (prompt := build_prompt agent_card h.1).
  intros [Hpre Hw]%Forall_app.
  apply Forall_cons in Hpre as [H1 Hpre]. apply Forall_cons in Hpre as [H2 Hpre].
  apply Forall_cons in Hpre as [H3 _]. unfold goes_through in H1, H2, H3.
  unfold announce. rewrite H1, H2. cbn [mbind res_bind]. rewrite H3. f_equal.
  destruct (llm_callable h.2 prompt) as [v|e];
    cbn [a2a_stdout.route_response a2a.route_response]; [|by apply outer_handler_written].
  destruct (str_receiver v "find") as [s|e]; cbn [mbind res_bind];
    [|by apply outer_handler_written].
  apply Forall_cons in Hw as [H4 Hw]. unfold goes_through in H4. rewrite H4.
  cbn [mbind res_bind]. unfold a2a_stdout.parse_response.
  destruct (a2a.parse_response agent_card (first_to_last_brace s)) as [d|e];
    cbn [mbind res_bind a2a_stdout.inner_handler a2a.inner_handler].
  - apply Forall_cons in Hw as [H5 _]. unfold goes_through in H5. by rewrite H5.
  - destruct (isinstance_ValueError e); [|by apply outer_handler_written].
    apply Forall_cons in Hw as [H6 _]. unfold goes_through in H6. by rewrite H6.
Qed.

Lemma agent_router_v2_written (user_message : string) (agent_card : AgentCard)
    (llm_callable : llm) (thread_id : option string) (CHAT_HISTORY : gmap string string) :
  Forall goes_through (writes user_message agent_card llm_callable thread_id CHAT_HISTORY) ->
  a2a_stdout.agent_router_v2 user_message agent_card llm_callable thread_id CHAT_HISTORY
  = a2a.agent_router_v2 user_message agent_card llm_callable thread_id CHAT_HISTORY.
Proof.
  intros Hw. rewrite agent_router_v2_split, agent_router_written by done.
  unfold a2a.agent_router_v2. by destruct (a2a.agent_router _ _ _ _ _).
Qed.

(** Every decision that comes back with a falsy [can_handle] costs
    nothing, on any standard output. *)
Lemma returned_declined (agent_card : AgentCard) (reply : llm_outcome)
    (d : RouterDecision) :
  a2a_stdout.outer_handler (a2a_stdout.route_response agent_card reply) = Returned d ->
  py_bool (canHandle d) = false -> costUnits d = 0%Z.
Proof.
  assert (Hfail : forall prefix e d',
            match py_print (routing_error_text e) with
            | Ok _ => Returned (failure prefix e)
            | Raise e' => Propagated e'
            end = Returned d' -> costUnits d' = 0%Z).
  { intros prefix e d'. destruct (py_print _); [|done]. by intros [= <-]. }
  unfold a2a_stdout.outer_handler.
  destruct (a2a_stdout.route_response agent_card reply) as [d'|e] eqn:Hr.
  - intros [= <-] Hc. destruct reply as [v|e]; [|done].
    cbn [a2a_stdout.route_response] in Hr. destruct v; try done.
    cbn [str_receiver mbind res_bind] in Hr.
    destruct (py_print (response_text _)); cbn [mbind res_bind] in Hr; [|done].
    unfold a2a_stdout.parse_response in Hr.
    destruct (a2a.parse_response _ _) as [d''|e] eqn:Hp; cbn [mbind res_bind] in Hr.
    + destruct (py_print (decision_text d'')) as [|e]; cbn [mbind res_bind] in Hr.
      * cbn [a2a_stdout.inner_handler] in Hr. injection Hr as <-.
        apply a2a_proofs.parse_response_ok in Hp.
        rewrite a2a_proofs.compute_cost_declined in Hp by done. by injection Hp.
      * cbn [a2a_stdout.inner_handler] in Hr.
        destruct (isinstance_ValueError e); [|done].
        destruct (py_print (parse_error_text e)); cbn [mbind res_bind] in Hr; [|done].
        by injection Hr as <-.
    + cbn [a2a_stdout.inner_handler] in Hr.
      destruct (isinstance_ValueError e); [|done].
      destruct (py_print (parse_error_text e)); cbn [mbind res_bind] in Hr; [|done].
      by injection Hr as <-.
  - destruct (isinstance_Exception e); [|done]. intros Hd _. by eapply Hfail.
Qed.

(** C3 (amended): whenever the texts the call prints go through, a
    callable that returns, whatever it returns, or raises an exception
    derived from [Exception] makes the router return a decision and raise
    nothing; a failed invocation, a reply that is not a string and a text
    that does not decode each come back as [can_handle] false, cost 0, a
    message made of a fixed prefix and the text of the error, and an
    empty [skills_used]; and what the callable raises outside [Exception]
    reaches the caller. *)
Theorem route_returns_decision (user_message : string) (agent_card : AgentCard)
    (llm_callable : llm) (thread_id : option string)
    (CHAT_HISTORY : gmap string string) :
  let h := check_history user_message thread_id CHAT_HISTORY in
  let reply := llm_callable h.2 (build_prompt agent_card h.1) in
  let result :=
    (a2a_stdout.agent_router user_message agent_card llm_callable thread_id
       CHAT_HISTORY).2 in
  Forall goes_through (writes user_message agent_card llm_callable thread_id CHAT_HISTORY) ->
  ((forall e, reply = LLMRaise e -> isinstance_Exception e = true) ->
   exists d, result = Returned d) /\
  (forall e, reply = LLMRaise e -> isinstance_Exception e = true ->
     result = Returned (PyBool false, 0%Z,
                        PyStr ("Error in agent routing: " +:+ exc_str e), PyList [])) /\
  (forall e, reply = LLMRaise e -> isinstance_Exception e = false ->
     result = Propagated e) /\
  (forall v, reply = LLMReturn v -> (forall text, v <> PyStr text) ->
     exists detail,
       result = Returned (PyBool false, 0%Z,
                          PyStr ("Error in agent routing: " +:+ detail), PyList [])) /\
  (forall text msg, reply = LLMReturn (PyStr text) ->
     json_loads (str_strip (first_to_last_brace text)) = DecodeError msg ->
     result = Returned (PyBool false, 0%Z,
                        PyStr ("Error parsing LLM response: " +:+ msg), PyList [])).
Proof.
  intros h reply result Hw. unfold result. rewrite agent_router_written by done.
  pose proof (a2a_proofs.router_returns_decision user_message agent_card llm_callable
                thread_id CHAT_HISTORY) as Hr.
  cbv zeta in Hr. fold h reply in Hr. split_and!.
  - intros Hexc. apply (Hr Hexc).
  - intros e Hreply He. apply Hr; [|done]. intros e' He'. congruence.
  - intros e Hreply He. rewrite a2a_proofs.agent_router_eq. cbv zeta. fold h reply.
    rewrite Hreply. cbn [snd a2a.route_response a2a.outer_handler]. by rewrite He.
  - intros v Hreply Hv. apply (proj1 (proj2 (proj2 (Hr ltac:(congruence)))) v); done.
  - intros text msg Hreply Hdec.
    apply (proj2 (proj2 (proj2 (Hr ltac:(congruence)))) text msg); done.
Qed.

(** C4 (amended): whenever the texts the call prints go through, a
    completion text with no braces comes back as [can_handle] false, cost
    0, a message that starts with "Error parsing LLM response: ", and an
    empty [skills_used]; and a text that decodes to an object without
    [can_handle] comes back with [can_handle] false and cost 0, its
    [user_message] and [skills_used] being the object's, or the empty
    string and the empty list when it has none. *)
Theorem malformed_completion_recovers (user_message : string) (agent_card : AgentCard)
    (llm_callable : llm) (thread_id : option string)
    (CHAT_HISTORY : gmap string string) :
  let h := check_history user_message thread_id CHAT_HISTORY in
  let reply := llm_callable h.2 (build_prompt agent_card h.1) in
  let result :=
    (a2a_stdout.agent_router user_message agent_card llm_callable thread_id
       CHAT_HISTORY).2 in
  Forall goes_through (writes user_message agent_card llm_callable thread_id CHAT_HISTORY) ->
  (forall text, reply = LLMReturn (PyStr text) ->
     has_char "{"%char text = false -> has_char "}"%char text = false ->
     exists msg,
       result = Returned (PyBool false, 0%Z,
                          PyStr ("Error parsing LLM response: " +:+ msg), PyList [])) /\
  (forall text entries, reply = LLMReturn (PyStr text) ->
     json_loads (str_strip (first_to_last_brace text)) = Decoded (PyDict entries) ->
     assoc "can_handle" entries = None ->
     result = Returned (PyBool false, 0%Z,
                        dict_get entries "user_message" (PyStr ""),
                        dict_get entries "skills_used" (PyList []))).
Proof.
  intros h reply result Hw. unfold result. rewrite agent_router_written by done.
  exact (a2a_proofs.malformed_completion user_message agent_card llm_callable
           thread_id CHAT_HISTORY).
Qed.


(** X16: a write that raises before the [try] ends the call: what it
    raised reaches the caller, the store is left as by a call that runs
    to its end, and the completion callable has no part in the result:
    any other callable gives the same. *)
Theorem failed_write_before_try (user_message : string) (agent_card : AgentCard)
    (llm_callable : llm) (thread_id : option string)
    (CHAT_HISTORY : gmap string string) (e : exc) :
  let h := check_history user_message thread_id CHAT_HISTORY in
  py_print (request_text h.1) = Raise e \/
  (goes_through (request_text h.1) /\ py_print (card_text agent_card) = Raise e) \/
  (goes_through (request_text h.1) /\ goes_through (card_text agent_card) /\
   py_print (prompt_text (build_prompt agent_card h.1)) = Raise e) ->
  a2a_stdout.agent_router user_message agent_card llm_callable thread_id CHAT_HISTORY
  = ((a2a.agent_router user_message agent_card llm_callable thread_id CHAT_HISTORY).1,
     Propagated e) /\
  forall other : llm,
    a2a_stdout.agent_router user_message agent_card other thread_id CHAT_HISTORY
    = a2a_stdout.agent_router user_message agent_card llm_callable thread_id CHAT_HISTORY.
Proof.
  intros h Hfail.
  assert (Ha : announce h.1 agent_card (build_prompt agent_card h.1) = Raise e).
  { unfold announce, goes_through in *.
    destruct Hfail as [->|[[-> ->]|(-> & -> & ->)]]; reflexivity. }
  split; [|intros other]; rewrite !agent_router_split; cbv zeta; fold h; rewrite Ha;
    [by rewrite a2a_proofs.agent_router_eq | done].
Qed.

(** X17: a write that raises inside the [try], the three writes before
    it having gone through. Line 162 raising an [Exception] ends in the
    recovery decision of the outer handler; line 191 raising a
    [ValueError] makes the inner handler take a decoded reply for a
    decode failure, and line 191 raising another [Exception] ends in the
    recovery decision of the outer handler; line 195 raising in the inner
    handler ends in the recovery decision of the outer handler; line 199
    raising in the outer handler reaches the caller. *)
Theorem failed_write_inside_try (user_message : string) (agent_card : AgentCard)
    (llm_callable : llm) (thread_id : option string)
    (CHAT_HISTORY : gmap string string) :
  let h := check_history user_message thread_id CHAT_HISTORY in
  let prompt := build_prompt agent_card h.1 in
  let reply := llm_callable h.2 prompt in
  let result :=
    (a2a_stdout.agent_router user_message agent_card llm_callable thread_id
       CHAT_HISTORY).2 in
  Forall goes_through [request_text h.1; card_text agent_card; prompt_text prompt] ->
  (forall text e, reply = LLMReturn (PyStr text) ->
     py_print (response_text (first_to_last_brace text)) = Raise e ->
     isinstance_Exception e = true -> goes_through (routing_error_text e) ->
     result = Returned (failure "Error in agent routing: " e)) /\
  (forall text d e, reply = LLMReturn (PyStr text) ->
     goes_through (response_text (first_to_last_brace text)) ->
     a2a.parse_response agent_card (first_to_last_brace text) = Ok d ->
     py_print (decision_text d) = Raise e ->
     isinstance_ValueError e = true -> goes_through (parse_error_text e) ->
     result = Returned (failure "Error parsing LLM response: " e)) /\
  (forall text d e, reply = LLMReturn (PyStr text) ->
     goes_through (response_text (first_to_last_brace text)) ->
     a2a.parse_response agent_card (first_to_last_brace text) = Ok d ->
     py_print (decision_text d) = Raise e ->
     isinstance_ValueError e = false -> isinstance_Exception e = true ->
     goes_through (routing_error_text e) ->
     result = Returned (failure "Error in agent routing: " e)) /\
  (forall text msg e, reply = LLMReturn (PyStr text) ->
     goes_through (response_text (first_to_last_brace text)) ->
     json_loads (str_strip (first_to_last_brace text)) = DecodeError msg ->
     py_print (parse_error_text (Exc JSONDecodeError msg)) = Raise e ->
     isinstance_Exception e = true -> goes_through (routing_error_text e) ->
     result = Returned (failure "Error in agent routing: " e)) /\
  (forall e0 e, reply = LLMRaise e0 -> isinstance_Exception e0 = true ->
     py_print (routing_error_text e0) = Raise e ->
     result = Propagated e).
Proof.
  intros h prompt reply result Hpre. unfold result.
  rewrite agent_router_split. cbv zeta. fold h prompt reply. cbn [snd].
  apply Forall_cons in Hpre as [H1 Hpre]. apply Forall_cons in Hpre as [H2 Hpre].
  apply Forall_cons in Hpre as [H3 _]. unfold goes_through in *.
  unfold announce. rewrite H1, H2. cbn [mbind res_bind]. rewrite H3.
  split_and!.
  - intros text e -> Hw He Hp.
    cbn [a2a_stdout.route_response str_receiver mbind res_bind]. rewrite Hw.
    cbn [mbind res_bind a2a_stdout.outer_handler]. by rewrite He, Hp.
  - intros text d e -> Hw Hd Hp He Hq.
    cbn [a2a_stdout.route_response str_receiver mbind res_bind]. rewrite Hw.
    cbn [mbind res_bind]. unfold a2a_stdout.parse_response. rewrite Hd.
    cbn [mbind res_bind]. rewrite Hp. cbn [mbind res_bind a2a_stdout.inner_handler].
    rewrite He, Hq. reflexivity.
  - intros text d e -> Hw Hd Hp He He' Hq.
    cbn [a2a_stdout.route_response str_receiver mbind res_bind]. rewrite Hw.
    cbn [mbind res_bind]. unfold a2a_stdout.parse_response. rewrite Hd.
    cbn [mbind res_bind]. rewrite Hp. cbn [mbind res_bind a2a_stdout.inner_handler].
    rewrite He. cbn [a2a_stdout.outer_handler]. by rewrite He', Hq.
  - intros text msg e -> Hw Hdec Hp He Hq.
    cbn [a2a_stdout.route_response str_receiver mbind res_bind]. rewrite Hw.
    cbn [mbind res_bind]. unfold a2a_stdout.parse_response, a2a.parse_response.
    rewrite Hdec. cbn [mbind res_bind a2a_stdout.inner_handler].
    change (isinstance_ValueError (Exc JSONDecodeError msg)) with true. cbv iota.
    rewrite Hp. cbn [mbind res_bind a2a_stdout.outer_handler]. by rewrite He, Hq.
  - intros e0 e -> He0 Hp. cbn [a2a_stdout.route_response a2a_stdout.outer_handler].
    by rewrite He0, Hp.
Qed.

(** X10: when the texts the call prints go through, [agent_router_v2]
    returns on the router's own failures, it does not raise: a callable
    that raises an [Exception] and a reply that does not decode both come
    back as a [RouterResponse] with [can_handle] false, a cost of 0, the
    diagnostic as message and no skills. What the callable raises outside
    [Exception] goes through to the caller. *)
Theorem agent_router_v2_recovers (user_message : string) (agent_card : AgentCard)
    (llm_callable : llm) (thread_id : option string)
    (CHAT_HISTORY : gmap string string) :
  let h := check_history user_message thread_id CHAT_HISTORY in
  let reply := llm_callable h.2 (build_prompt agent_card h.1) in
  let result :=
    (a2a_stdout.agent_router_v2 user_message agent_card llm_callable thread_id
       CHAT_HISTORY).2 in
  Forall goes_through (writes user_message agent_card llm_callable thread_id CHAT_HISTORY) ->
  (forall e, reply = LLMRaise e -> isinstance_Exception e = true ->
     result = Returned (mkRouterResponse false 0%Z
                          ("Error in agent routing: " +:+ exc_str e) [])) /\
  (forall e, reply = LLMRaise e -> isinstance_Exception e = false ->
     result = Propagated e) /\
  (forall text msg, reply = LLMReturn (PyStr text) ->
     json_loads (str_strip (first_to_last_brace text)) = DecodeError msg ->
     result = Returned (mkRouterResponse false 0%Z
                          ("Error parsing LLM response: " +:+ msg) [])).
Proof.
  intros h reply result Hw. unfold result. rewrite agent_router_v2_written by done.
  exact (a2a_more_proofs.agent_router_v2_on_failure user_message agent_card llm_callable
           thread_id CHAT_HISTORY).
Qed.

(** X18: the store is written before anything is printed. For a call on
    a non-empty thread id, on any standard output, the store the call
    leaves is the old one with the combined text under the thread id,
    whatever the call ends in; when the three writes before the [try] go
    through, the callable is invoked on that store; and when one of them
    raises, the call ends there with the store updated. *)
Theorem store_written_before_any_write (user_message : string)
    (agent_card : AgentCard) (llm_callable : llm) (t : string)
    (CHAT_HISTORY : gmap string string) :
  t <> EmptyString ->
  let text :=
    match CHAT_HISTORY !! t with
    | Some history => history +:+ nl +:+ nl +:+ user_message
    | None => user_message
    end in
  let store := <[t := text]> CHAT_HISTORY in
  let prompt := build_prompt agent_card text in
  let call :=
    a2a_stdout.agent_router user_message agent_card llm_callable (Some t) CHAT_HISTORY in
  call.1 = store /\
  call.1 !! t = Some text /\
  (Forall goes_through [request_text text; card_text agent_card; prompt_text prompt] ->
   call.2
   = a2a_stdout.outer_handler
       (a2a_stdout.route_response agent_card (llm_callable store prompt))) /\
  (forall e, announce text agent_card prompt = Raise e -> call.2 = Propagated e).
Proof.
  intros Ht text store prompt call. unfold call.
  rewrite agent_router_split, a2a_proofs.check_history_thread by done.
  cbv zeta. cbn [fst snd]. unfold combined. fold text. fold store prompt. split_and!.
  - done.
  - apply lookup_insert_eq.
  - intros Hpre.
    apply Forall_cons in Hpre as [H1 Hpre]. apply Forall_cons in Hpre as [H2 Hpre].
    apply Forall_cons in Hpre as [H3 _]. unfold goes_through in *.
    unfold announce. rewrite H1, H2. cbn [mbind res_bind]. by rewrite H3.
  - by intros e ->.
Qed.

(** X19: on any standard output [agent_router_v2] leaves the store as
    [agent_router] does on the same input; when the tuple of
    [agent_router] holds a bool, a string and a list of strings, the
    fields of the [RouterResponse] are the four components of the tuple;
    and what [agent_router] raises, a failed write included, reaches the
    caller of [agent_router_v2] too. *)
Theorem agent_router_v2_agrees_on_stdout (user_message : string)
    (agent_card : AgentCard) (llm_callable : llm) (thread_id : option string)
    (CHAT_HISTORY : gmap string string) :
  let v1 :=
    a2a_stdout.agent_router user_message agent_card llm_callable thread_id CHAT_HISTORY in
  let v2 :=
    a2a_stdout.agent_router_v2 user_message agent_card llm_callable thread_id
      CHAT_HISTORY in
  v2.1 = v1.1 /\
  (forall b c text names,
     v1.2 = Returned (PyBool b, c, PyStr text, PyList (map PyStr names)) ->
     v2.2 = Returned (mkRouterResponse b c text names)) /\
  (forall e, v1.2 = Propagated e -> v2.2 = Propagated e).
Proof.
  intros v1 v2. unfold v2. rewrite agent_router_v2_split. cbv zeta. fold v1.
  destruct v1 as [store r]. cbn [fst snd]. split_and!; [done| |].
  - intros b c text names ->. unfold RouterResponse_init.
    cbn [validate_bool validate_str validate_list_str mbind res_bind].
    assert (Hitems : validate_items "skills_used" (map PyStr names) = Ok names).
    { induction names as [|n names IH]; [done|].
      cbn [map validate_items validate_str mbind res_bind]. by rewrite IH. }
    by rewrite Hitems.
  - by intros e ->.
Qed.


End Router.

(** C1: a completion that decodes with [can_handle] true, names the
    priced skill and has a lone surrogate as its message. The decoded
    tuple is priced at 150, line 191 cannot print it on a UTF-8 standard
    output, the inner handler takes the [UnicodeEncodeError] for a decode
    failure, and the call returns [can_handle] false at cost 0. *)
Theorem surrogate_message_voids_decision :
  json_loads (str_strip (first_to_last_brace reply_surrogate))
  = Decoded (PyDict [("can_handle", PyBool true);
                     ("user_message", PyStr lone_surrogate);
                     ("skills_used", PyList [PyStr "translate"])]) /\
  a2a.parse_response translator (first_to_last_brace reply_surrogate)
  = Ok (PyBool true, 150%Z, PyStr lone_surrogate, PyList [PyStr "translate"]) /\
  (a2a_stdout.agent_router (stdout := utf8_stdout) "translate this" translator
     (answers reply_surrogate) None ∅).2
  = Returned
      (PyBool false, 0%Z,
       PyStr ("Error parsing LLM response: 'utf-8' codec can't encode character '\ud83d' "
              +:+ "in position 28: surrogates not allowed"),
       PyList []).
Proof. split_and!; vm_compute; reflexivity. Qed.

(** C3, at a concrete input: the callable raises an [Exception]. *)
Lemma route_returns_decision_witness :
  (a2a_stdout.agent_router (stdout := utf8_stdout) "hello" translator
     (raises (Exc OtherException "connection refused")) None ∅).2
  = Returned (PyBool false, 0%Z,
              PyStr "Error in agent routing: connection refused", PyList []).
Proof.
  exact (proj1 (proj2 (route_returns_decision (stdout := utf8_stdout) "hello" translator
                         (raises (Exc OtherException "connection refused")) None ∅
                         ltac:(apply Forall_written; vm_compute; reflexivity)))
           (Exc OtherException "connection refused") eq_refl eq_refl).
Defined.

(** C3, as stated, fails for a callable that raises outside [Exception]:
    the interrupt passes both handlers and reaches the caller. It fails
    as well when a text cannot be written: for a request that ends in a
    surrogate line 119 raises before the [try], with the callable not
    invoked, and for a callable whose error text holds a surrogate line
    199 raises inside the outer handler. *)
Lemma route_raises_to_caller :
  a2a_stdout.agent_router (stdout := utf8_stdout) "hello" translator
    (raises (Exc KeyboardInterrupt EmptyString)) None ∅
  = (∅, Propagated (Exc KeyboardInterrupt EmptyString)) /\
  (a2a_stdout.agent_router (stdout := utf8_stdout) request_surrogate translator
     (answers reply_translate) None ∅).2
  = Propagated
      (Exc UnicodeEncodeError
         ("'utf-8' codec can't encode character '\ud800' "
          +:+ "in position 17: surrogates not allowed")) /\
  (a2a_stdout.agent_router (stdout := utf8_stdout) "hello" translator (raises boom)
     None ∅).2
  = Propagated
      (Exc UnicodeEncodeError
         ("'utf-8' codec can't encode character '\ud83d' "
          +:+ "in position 29: surrogates not allowed")).
Proof. split_and!; vm_compute; reflexivity. Qed.

(** C4, at a concrete input: a plain sentence. *)
Lemma malformed_completion_recovers_witness :
  exists msg,
    (a2a_stdout.agent_router (stdout := utf8_stdout) "translate this" translator
       (answers "I cannot decide.") None ∅).2
    = Returned (PyBool false, 0%Z,
                PyStr ("Error parsing LLM response: " +:+ msg), PyList []).
Proof.
  exact (proj1 (malformed_completion_recovers (stdout := utf8_stdout) "translate this"
                  translator (answers "I cannot decide.") None ∅
                  ltac:(apply Forall_written; vm_compute; reflexivity))
           "I cannot decide." eq_refl eq_refl eq_refl).
Defined.

(** C4, as stated, fails for an object that lacks the fields: the empty
    object comes back with an empty message, not a diagnostic, and an
    object with only [can_handle] set to true comes back accepted, at the
    base price. *)
Lemma object_without_fields_is_no_error :
  (a2a_stdout.agent_router (stdout := utf8_stdout) "translate this" translator
     (answers "{}") None ∅).2
  = Returned (PyBool false, 0%Z, PyStr EmptyString, PyList []) /\
  (a2a_stdout.agent_router (stdout := utf8_stdout) "translate this" translator
     (answers reply_can_handle_only) None ∅).2
  = Returned (PyBool true, 50%Z, PyStr EmptyString, PyList []).
Proof. split; vm_compute; reflexivity. Qed.

(** An object without [can_handle] whose message line 191 cannot print
    does not come back with its own message: it comes back as a decode
    failure. *)
Example surrogate_object_is_diagnosed :
  (a2a_stdout.agent_router (stdout := utf8_stdout) "translate this" translator
     (answers reply_surrogate_only) None ∅).2
  = Returned
      (PyBool false, 0%Z,
       PyStr ("Error parsing LLM response: 'utf-8' codec can't encode character '\ud83d' "
              +:+ "in position 27: surrogates not allowed"),
       PyList []).
Proof. vm_compute. reflexivity. Qed.


(** X16, at a concrete input: a request that ends in a surrogate, on
    thread [t1]. *)
Lemma failed_write_before_try_witness :
  a2a_stdout.agent_router (stdout := utf8_stdout) request_surrogate translator
    (answers reply_translate) (Some "t1") ∅
  = ((a2a.agent_router request_surrogate translator (answers reply_translate)
        (Some "t1") ∅).1,
     Propagated
       (Exc UnicodeEncodeError
          ("'utf-8' codec can't encode character '\ud800' "
           +:+ "in position 17: surrogates not allowed"))).
Proof.
  exact (proj1 (failed_write_before_try (stdout := utf8_stdout) request_surrogate
                  translator (answers reply_translate) (Some "t1") ∅ _
                  ltac:(left; vm_compute; reflexivity))).
Defined.

(** X17, at a concrete input: the completion whose message is a lone
    surrogate. *)
Lemma failed_write_inside_try_witness :
  (a2a_stdout.agent_router (stdout := utf8_stdout) "translate this" translator
     (answers reply_surrogate) None ∅).2
  = Returned
      (failure "Error parsing LLM response: "
         (Exc UnicodeEncodeError
            ("'utf-8' codec can't encode character '\ud83d' "
             +:+ "in position 28: surrogates not allowed"))).
Proof.
  exact (proj1 (proj2 (failed_write_inside_try (stdout := utf8_stdout) "translate this"
                         translator (answers reply_surrogate) None ∅
                         ltac:(apply Forall_written; vm_compute; reflexivity)))
           reply_surrogate
           (PyBool true, 150%Z, PyStr lone_surrogate, PyList [PyStr "translate"])
           _ eq_refl
           ltac:(vm_compute; reflexivity) ltac:(vm_compute; reflexivity)
           ltac:(vm_compute; reflexivity) eq_refl ltac:(vm_compute; reflexivity)).
Defined.

(** X10, at a concrete input: the callable raises an [Exception]. *)
Lemma agent_router_v2_recovers_witness :
  (a2a_stdout.agent_router_v2 (stdout := utf8_stdout) "hello" translator
     (raises (Exc OtherException "connection refused")) None ∅).2
  = Returned (mkRouterResponse false 0%Z "Error in agent routing: connection refused" []).
Proof.
  exact (proj1 (agent_router_v2_recovers (stdout := utf8_stdout) "hello" translator
                  (raises (Exc OtherException "connection refused")) None ∅
                  ltac:(apply Forall_written; vm_compute; reflexivity))
           (Exc OtherException "connection refused") eq_refl eq_refl).
Defined.

(** X18, at a concrete input: the request that cannot be printed is in
    the store when the call raises. *)
Lemma store_written_before_any_write_witness :
  (a2a_stdout.agent_router (stdout := utf8_stdout) request_surrogate translator
     (answers reply_translate) (Some "t1") {["t1" := "earlier"]}).1 !! "t1"
  = Some ("earlier" +:+ nl +:+ nl +:+ request_surrogate).
Proof.
  exact (proj1 (proj2 (store_written_before_any_write (stdout := utf8_stdout)
                         request_surrogate translator (answers reply_translate) "t1"
                         {["t1" := "earlier"]} ltac:(discriminate)))).
Defined.

(** X19, at a concrete input: the callable's error text cannot be
    printed, and both routers raise what line 199 raised. *)
Lemma agent_router_v2_agrees_on_stdout_witness :
  (a2a_stdout.agent_router_v2 (stdout := utf8_stdout) "hello" translator (raises boom)
     None ∅).2
  = Propagated
      (Exc UnicodeEncodeError
         ("'utf-8' codec can't encode character '\ud83d' "
          +:+ "in position 29: surrogates not allowed")).
Proof.
  exact (proj2 (proj2 (agent_router_v2_agrees_on_stdout (stdout := utf8_stdout) "hello"
                         translator (raises boom) None ∅))
           _ ltac:(vm_compute; reflexivity)).
Defined.

End a2a_stdout_proofs.

(** * The profile that [update_metadata] builds *)
Module nostr_client_copy_proofs.
Import nostr_client nostr_client_copy examples nostr_client_proofs.

(** ** The copy of lines 121-122 *)

Lemma copy_previous_profile (previous_metadata : option Metadata) :
  profile (copy_previous previous_metadata) = kept <$> stored_profile previous_metadata.
Proof.
  destruct previous_metadata as [previous|]; [apply set_metadata_to_dict_kept | done].
Qed.

(** ** The assignments of lines 123-143 *)

Lemma assign_arguments_profile (a : profile_args) (now : Z) (metadata : Metadata) :
  profile (assign_arguments a now metadata)
  = zip_with assign_if (args_list a) (profile metadata).
Proof. reflexivity. Qed.

Lemma built_profile (previous_metadata : option Metadata) (a : profile_args) (now : Z) :
  profile (assign_arguments a now (copy_previous previous_metadata))
  = zip_with assign_if (args_list a) (kept <$> stored_profile previous_metadata).
Proof. by rewrite assign_arguments_profile, copy_previous_profile. Qed.

Lemma assign_if_supplied (v : string) (current : option string) :
  v <> EmptyString -> assign_if (Some v) current = Some v.
Proof. intros Hv. unfold assign_if, py_bool. by destruct (String.eqb_spec v ""). Qed.

Lemma kept_nonempty (v : string) : v <> EmptyString -> kept (Some v) = Some v.
Proof. intros Hv. unfold kept, py_bool. by destruct (String.eqb_spec v ""). Qed.

Lemma args_list_length (a : profile_args) : length (args_list a) = 10.
Proof. reflexivity. Qed.

Lemma stored_profile_length (previous_metadata : option Metadata) :
  length (stored_profile previous_metadata) = 10.
Proof. by destruct previous_metadata. Qed.

(** These are the lines of [build_metadata]: for any implementation of
    pynostr's methods, the metadata it hands back is [update] of the
    assignments over the copy made with that implementation; with the
    methods of [pynostr_reference] the copy is [copy_previous]. *)
Lemma build_metadata_assigns `{Pynostr} (self : NostrClient) (a : profile_args)
    (now : Z) (relay : list Event) :
  (build_metadata self a now relay).2
  = update
      (assign_arguments a now
         match get_metadata_for_pubkey self (Some (public_key self)) relay with
         | Some previous =>
             nostr_client.set_metadata Metadata_new (nostr_client.metadata_to_dict previous)
         | None => Metadata_new
         end).
Proof. reflexivity. Qed.

Lemma build_metadata_copy (self : NostrClient) (a : profile_args) (now : Z)
    (relay : list Event) :
  (build_metadata self a now relay).2
  = pynostr_reference.update
      (assign_arguments a now
         (copy_previous (get_metadata_for_pubkey self (Some (public_key self)) relay))).
Proof.
  rewrite build_metadata_assigns. unfold copy_previous.
  by destruct (get_metadata_for_pubkey _ _ _).
Qed.

(** C5 (amended): in the metadata that [update_metadata] builds for
    publication, an attribute supplied in the call with a non-empty value
    holds that value, and an attribute that is not supplied, or is
    supplied as the empty string, holds what the copy of the stored
    metadata holds for it: the stored value, or [None] where nothing or
    the empty string is stored. *)
Theorem update_assigns_supplied_fields (previous_metadata : option Metadata)
    (a : profile_args) (now : Z) :
  let metadata := assign_arguments a now (copy_previous previous_metadata) in
  profile metadata
  = zip_with assign_if (args_list a) (kept <$> stored_profile previous_metadata) /\
  (forall i v, args_list a !! i = Some (Some v) -> v <> EmptyString ->
     profile metadata !! i = Some (Some v)) /\
  (forall i arg stored, args_list a !! i = Some arg ->
     arg = None \/ arg = Some EmptyString ->
     stored_profile previous_metadata !! i = Some stored ->
     profile metadata !! i = Some (kept stored)) /\
  (forall v, v <> EmptyString -> kept (Some v) = Some v) /\
  kept (Some EmptyString) = None /\ kept None = None.
Proof.
  cbv zeta. rewrite built_profile. split_and!; try done.
  - intros i v Harg Hv. rewrite lookup_zip_with, Harg. cbn [mbind option_bind].
    destruct (lookup_lt_is_Some_2 (kept <$> stored_profile previous_metadata) i)
      as [stored Hs].
    { rewrite length_fmap, stored_profile_length.
      apply lookup_lt_Some in Harg. by rewrite args_list_length in Harg. }
    rewrite Hs. cbn [mbind option_bind]. by rewrite assign_if_supplied.
  - intros i arg stored Harg Hempty Hs. rewrite lookup_zip_with, Harg.
    cbn [mbind option_bind]. rewrite list_lookup_fmap, Hs. cbn [fmap option_fmap option_map mbind option_bind].
    by destruct Hempty as [-> | ->].
  - apply kept_nonempty.
Qed.

(** X11: [update_metadata] cannot clear an attribute that is stored with
    a non-empty value, and it never stores the empty string: such an
    attribute has a non-empty value in the metadata the call builds, the
    stored one or the one passed in the call. *)
Theorem update_never_clears (previous_metadata : option Metadata) (a : profile_args)
    (now : Z) (i : nat) (v : string) :
  stored_profile previous_metadata !! i = Some (Some v) -> v <> EmptyString ->
  exists v',
    profile (assign_arguments a now (copy_previous previous_metadata)) !! i
    = Some (Some v') /\
    v' <> EmptyString /\ (v' = v \/ args_list a !! i = Some (Some v')).
Proof.
  intros Hstored Hv. rewrite built_profile, lookup_zip_with, list_lookup_fmap, Hstored.
  destruct (lookup_lt_is_Some_2 (args_list a) i) as [arg Harg].
  { apply lookup_lt_Some in Hstored.
    by rewrite stored_profile_length in Hstored. }
  rewrite Harg. cbn [fmap option_fmap option_map mbind option_bind].
  rewrite kept_nonempty by done.
  destruct arg as [w|]; cbn [assign_if]; [|eauto].
  unfold py_bool. destruct (String.eqb_spec w ""); cbn [negb]; eauto.
Qed.

(** C5, at a concrete input: the stored name is kept and the supplied
    description is assigned. *)
Lemma update_assigns_supplied_fields_witness :
  profile (assign_arguments (only_about "Routes requests") 200
             (copy_previous (Some stored_alice)))
  = [Some "Alice"; Some "Routes requests"; None; None; None; None; None; None; None; None].
Proof.
  rewrite (proj1 (update_assigns_supplied_fields (Some stored_alice)
                    (only_about "Routes requests") 200)).
  reflexivity.
Defined.

(** C5, as stated, fails for an argument supplied as the empty string:
    the stored name stays. It fails as well for a stored empty string,
    which is not retained when the call does not supply the attribute:
    the copy leaves it out and the name comes out as [None]. *)
Lemma empty_argument_keeps_stored_field :
  name (build_metadata alice (only_name EmptyString) 200
          (update_metadata alice (only_name "Alice") 100 [])).2
  = Some "Alice" /\
  name (assign_arguments (only_name EmptyString) 200 (copy_previous (Some stored_alice)))
  = Some "Alice" /\
  name (assign_arguments (only_about "Routes requests") 200
          (copy_previous (Some stored_blank)))
  = None.
Proof. split_and!; reflexivity. Qed.

(** X11, at a concrete input: the stored name survives a call that passes
    the empty string for it. *)
Lemma update_never_clears_witness :
  exists v',
    profile (assign_arguments (only_name EmptyString) 200
               (copy_previous (Some stored_alice))) !! 0
    = Some (Some v') /\
    v' <> EmptyString /\
    (v' = "Alice" \/ args_list (only_name EmptyString) !! 0 = Some (Some v')).
Proof.
  exact (update_never_clears (Some stored_alice) (only_name EmptyString) 200 0 "Alice"
           eq_refl ltac:(discriminate)).
Defined.

End nostr_client_copy_proofs.

(** * Properties of the retrieval *)
Module nostr_rag_proofs.
Import a2a nostr_client nostr_posts nostr_rag examples rag_examples.

Lemma has_space_rev_app (a b : string) :
  has_space (String.rev_app a b) = has_space a || has_space b.
Proof.
  revert b. induction a as [|c a IH]; intros b; [done|].
  cbn [String.rev_app has_space]. rewrite IH. cbn [has_space].
  by destruct (is_space c), (has_space a), (has_space b).
Qed.

Lemma has_space_rev (a : string) : has_space (String.rev a) = has_space a.
Proof. unfold String.rev. rewrite has_space_rev_app. cbn. apply orb_false_r. Qed.

(** No word that [split] gives has whitespace in it. *)
Lemma split_go_words (cur s : string) :
  has_space cur = false -> Forall (fun w => has_space w = false) (split_go cur s).
Proof.
  revert cur. induction s as [|c s IH]; intros cur Hcur; cbn [split_go].
  - destruct cur; [done|]. apply Forall_singleton. by rewrite has_space_rev.
  - destruct (is_space c) eqn:Hc.
    + destruct cur; [by apply IH|]. apply Forall_cons. split.
      * by rewrite has_space_rev.
      * by apply IH.
    + apply IH. cbn [has_space]. by rewrite Hc, Hcur.
Qed.

Lemma lstrip_hash_no_hash (s : string) : starts_with_hash (lstrip_hash s) = false.
Proof.
  induction s as [|c s IH]; [done|]. cbn [lstrip_hash].
  destruct (Ascii.eqb c "#"%char) eqn:Hc; [done|]. cbn [starts_with_hash]. done.
Qed.

Lemma lstrip_hash_no_space (s : string) :
  has_space s = false -> has_space (lstrip_hash s) = false.
Proof.
  induction s as [|c s IH]; [done|]. cbn [lstrip_hash has_space].
  intros [Hc Hs]%orb_false_iff.
  destruct (Ascii.eqb c "#"%char); [by apply IH|]. cbn [has_space]. by rewrite Hc, Hs.
Qed.

Lemma comprehension_strings (hs : list string) :
  comprehension (fun hashtag => s ← str_receiver hashtag "lstrip"; Ok (lstrip_hash s))
    (map PyStr hs)
  = Ok (map lstrip_hash hs).
Proof.
  induction hs as [|h hs IH]; [done|].
  cbn [map comprehension str_receiver mbind res_bind]. by rewrite IH.
Qed.

Lemma filter_hash_words (text : string) :
  Forall (fun h => starts_with_hash h = true /\ has_space h = false)
    (List.filter starts_with_hash (str_split text)).
Proof.
  apply Forall_forall. intros h [Hin Hh]%list_elem_of_In%filter_In. split; [done|].
  pose proof (split_go_words EmptyString text eq_refl) as Hw.
  rewrite Forall_forall in Hw. apply Hw. by apply list_elem_of_In.
Qed.

Lemma stripped_values_clean (hs : list string) (t : string) :
  Forall (fun h => starts_with_hash h = true /\ has_space h = false) hs ->
  Some t ∈ map Some (map lstrip_hash hs) ->
  starts_with_hash t = false /\ has_space t = false.
Proof.
  induction 1 as [|h hs [_ Hsp] _ IH]; cbn [map]; [by intros ?%elem_of_nil|].
  intros [Heq|Hin]%elem_of_cons; [|by apply IH].
  injection Heq as ->. split; [apply lstrip_hash_no_hash | by apply lstrip_hash_no_space].
Qed.

Lemma stripped_values_some (hs : list string) :
  None ∈ map Some (map lstrip_hash hs) -> False.
Proof.
  induction hs as [|h hs IH]; cbn [map]; [by intros ?%elem_of_nil|].
  by intros [?|?]%elem_of_cons.
Qed.

Section Rag.
Context `{JSONDecoder}.
Variable json_dumps : list string -> string.



End Rag.



End nostr_rag_proofs.
